(** * check_ntp_time: the NTP offset client of monitoring-plugins

    A shallow embedding of [plugins/check_ntp_time.c]: the fixed-point
    timestamp macros, [calc_offset], [setup_request], [best_offset_server]
    and the sampling loop of [offset_request], followed by the properties
    proved about them.

    Conventions.
    - A C [double] is a primitive binary64 float ([PrimFloat.float]); every
      arithmetic operation and comparison is the IEEE one the C code performs.
    - Integers are [Z]; where the C type wraps, the wrap-around is written out.
      The data model is LP64 ([unsigned long], [time_t] and [size_t] have
      64 bits).
    - An [ntp_message] is the 48 bytes of the C struct (the struct has no
      padding).  Every access the code makes to a multi-byte field goes
      through [ntohs]/[ntohl] on the halves [L16]/[R16]/[L32]/[R32], that is,
      it reads the bytes of the field in wire (big-endian) order, so the
      embedding does not depend on the byte order of the host.
    - [time], [gettimeofday], [poll] and [read] are the environment: each
      loop iteration receives their results in an [iter_env]. *)

From Stdlib Require Import ZArith Lia Floats String.
From Stdlib.Strings Require Import Byte.
From stdpp Require Import base list.

Set Warnings "-inexact-float".
#[local] Open Scope Z_scope.

(** ** C doubles *)

(** Conversion of an integer to [double] (round to nearest, ties to even). *)
Definition Z2double (z : Z) : float :=
  SF2Prim (binary_normalize prec emax z 0 false).

(** Conversion [(uint64_t)d] of a non-negative finite double: truncation.
    (The conversion is undefined in C for the other doubles; the code only
    applies it to [4294.967296 * tv_usec + .5] with [tv_usec >= 0].) *)
Definition double2u64 (d : float) : Z :=
  match Prim2SF d with
  | S754_finite false m e =>
      (if 0 <=? e then Z.pos m * 2 ^ e else Z.pos m / 2 ^ (- e)) mod 2 ^ 64
  | _ => 0
  end.

(** ** Bytes and big-endian fields *)

Definition byte_val (b : byte) : Z := Z.of_N (Byte.to_N b).

Definition byte_of_Z (z : Z) : byte :=
  match Byte.of_N (Z.to_N (z mod 256)) with
  | Some b => b
  | None => x00
  end.

(** The byte at offset [o] of a buffer. *)
Definition byte_at (buf : list byte) (o : nat) : Z :=
  byte_val (nth o buf x00).

(** [ntohs] of the two bytes at offset [o]. *)
Definition be16_at (buf : list byte) (o : nat) : Z :=
  byte_at buf o * 256 + byte_at buf (o + 1).

(** [ntohl] of the four bytes at offset [o]. *)
Definition be32_at (buf : list byte) (o : nat) : Z :=
  be16_at buf o * 65536 + be16_at buf (o + 2).

(** The bytes [htonl] stores for the 32-bit value [v mod 2^32]. *)
Definition be32_bytes (v : Z) : list byte :=
  [ byte_of_Z (v / 16777216); byte_of_Z (v / 65536);
    byte_of_Z (v / 256); byte_of_Z v ].

(** ** ntp_message *)

Definition ntp_message : Type := list byte.

Definition sizeof_ntp_message : nat := 48.

(** Byte offsets of the fields of [ntp_message]. *)
Definition off_flags : nat := 0.
Definition off_stratum : nat := 1.
Definition off_poll : nat := 2.
Definition off_precision : nat := 3.
Definition off_rtdelay : nat := 4.
Definition off_rtdisp : nat := 8.
Definition off_refid : nat := 12.
Definition off_refts : nat := 16.
Definition off_origts : nat := 24.
Definition off_rxts : nat := 32.
Definition off_txts : nat := 40.

Definition msg_flags (m : ntp_message) : Z := byte_at m off_flags.
Definition msg_stratum (m : ntp_message) : Z := byte_at m off_stratum.

(** The 64-bit field at offset [o], as the 8 bytes it occupies. *)
Definition field64 (m : ntp_message) (o : nat) : list byte :=
  take 8 (drop o m ++ replicate 8 x00).

(** ** Flag macros *)

Definition LI_MASK : Z := 0xc0.
Definition LI (x : Z) : Z := Z.shiftr (Z.land x LI_MASK) 6.
Definition LI_SET (x y : Z) : Z := Z.lor x (Z.land (Z.shiftl y 6) LI_MASK).
Definition LI_NOWARNING : Z := 0x00.
Definition LI_EXTRASEC : Z := 0x01.
Definition LI_MISSINGSEC : Z := 0x02.
Definition LI_ALARM : Z := 0x03.
Definition VN_MASK : Z := 0x38.
Definition VN (x : Z) : Z := Z.shiftr (Z.land x VN_MASK) 3.
Definition VN_SET (x y : Z) : Z := Z.lor x (Z.land (Z.shiftl y 3) VN_MASK).
Definition MODE_MASK : Z := 0x07.
Definition MODE (x : Z) : Z := Z.land x MODE_MASK.
Definition MODE_SET (x y : Z) : Z := Z.lor x (Z.land y MODE_MASK).
Definition MODE_CLIENT : Z := 0x03.

(** ** Fixed-point macros *)

(** [#define EPOCHDIFF 0x83aa7e80UL] *)
Definition EPOCHDIFF : Z := 0x83aa7e80.

(** Width of [unsigned long], the type of [EPOCHDIFF]. *)
Definition ULONG_BITS : Z := 64.

(** [NTP32asDOUBLE(x)] for the 32-bit field at offset [o]:
    [ntohs(L16(x)) + ((double)ntohs(R16(x)) / 65536.0)]. *)
Definition NTP32asDOUBLE (m : ntp_message) (o : nat) : float :=
  (Z2double (be16_at m o) + Z2double (be16_at m (o + 2)) / 65536)%float.

(** The two operands of the sum in [NTP64asDOUBLE]: the whole seconds
    [ntohl(L32(n)) - EPOCHDIFF], computed in [unsigned long], and the
    fraction [.00000001 * (0.5 + (double)(ntohl(R32(n)) / 42.94967296))]. *)
Definition ntp64_whole (hi : Z) : Z := (hi - EPOCHDIFF) mod 2 ^ ULONG_BITS.

Definition ntp64_frac (lo : Z) : float :=
  (0.00000001 * (0.5 + Z2double lo / 42.94967296))%float.

(** Is the [uint64_t] made of these 8 bytes zero? *)
Definition u64_is_zero (bs : list byte) : bool :=
  forallb (fun b => byte_val b =? 0) bs.

(** [NTP64asDOUBLE(n)] for the 8 bytes [n] of a 64-bit field. *)
Definition NTP64asDOUBLE (n : list byte) : float :=
  if u64_is_zero n then 0%float
  else (Z2double (ntp64_whole (be32_at n 0)) + ntp64_frac (be32_at n 4))%float.

Record timeval := mk_timeval { tv_sec : Z; tv_usec : Z }.

(** [TVasDOUBLE(x)]: [(double)(x.tv_sec + (0.000001 * x.tv_usec))]. *)
Definition TVasDOUBLE (x : timeval) : float :=
  (Z2double (tv_sec x) + 0.000001 * Z2double (tv_usec x))%float.

(** [TVtoNTP64(t, n)]: the 8 bytes stored in [n]. *)
Definition TVtoNTP64 (t : timeval) : list byte :=
  if (tv_usec t =? 0) && (tv_sec t =? 0) then replicate 8 x00
  else be32_bytes ((tv_sec t + EPOCHDIFF) mod 2 ^ ULONG_BITS)
         ++ be32_bytes (double2u64 (4294.967296 * Z2double (tv_usec t) + 0.5)%float).

(** ** calc_offset *)

Definition calc_offset (message : ntp_message) (time_value : timeval) : float :=
  let client_tx := NTP64asDOUBLE (field64 message off_origts) in
  let peer_rx := NTP64asDOUBLE (field64 message off_rxts) in
  let peer_tx := NTP64asDOUBLE (field64 message off_txts) in
  let client_rx := TVasDOUBLE time_value in
  (((peer_tx - client_rx) + (peer_rx - client_tx)) / 2)%float.

(** ** setup_request

    [t] is what [gettimeofday] returns inside the function. *)
Definition setup_request (t : timeval) : ntp_message :=
  let flags := MODE_SET (VN_SET (LI_SET 0 LI_ALARM) 4) MODE_CLIENT in
  [ byte_of_Z flags; x00; byte_of_Z 4; byte_of_Z 0xfa ]
    ++ [ x00; x01; x00; x00 ]        (* L16(rtdelay) = htons(1) *)
    ++ [ x00; x01; x00; x00 ]        (* L16(rtdisp) = htons(1) *)
    ++ replicate 4 x00               (* refid *)
    ++ replicate 8 x00               (* refts *)
    ++ replicate 8 x00               (* origts *)
    ++ replicate 8 x00               (* rxts *)
    ++ TVtoNTP64 t.                  (* txts *)

(** ** ntp_server_results *)

(** [#define AVG_NUM 4] *)
Definition AVG_NUM : Z := 4.

Record ntp_server_results := mk_results {
  waiting : Z;
  num_responses : Z;
  stratum : Z;
  rtdelay : float;
  rtdisp : float;
  offset : list float;
  flags : Z
}.

(** A record after [memset(servers, 0, ...)]. *)
Definition zero_results : ntp_server_results :=
  mk_results 0 0 0 0%float 0%float (replicate (Z.to_nat AVG_NUM) 0%float) 0.

(** ** best_offset_server *)

(** [slist[i]] *)
Definition srv (slist : list ntp_server_results) (i : Z) : ntp_server_results :=
  nth (Z.to_nat i) slist zero_results.

(** One pass of the body of the [for] loop: the value of [best_server]
    after the iteration for [cserver]. *)
Definition best_offset_body (slist : list ntp_server_results)
    (cserver best_server : Z) : Z :=
  if stratum (srv slist cserver) =? 0 then best_server
  else if LI (flags (srv slist cserver)) =? LI_ALARM then best_server
  else if best_server =? -1 then cserver
  else if stratum (srv slist cserver) <=? stratum (srv slist best_server) then
    if PrimFloat.leb (rtdisp (srv slist cserver)) (rtdisp (srv slist best_server)) then
      if PrimFloat.ltb (rtdelay (srv slist cserver)) (rtdelay (srv slist best_server))
      then cserver
      else best_server
    else best_server
  else best_server.

(** The [for] loop, with [n] iterations left. *)
Fixpoint best_offset_loop (slist : list ntp_server_results) (n : nat)
    (cserver best_server : Z) : Z :=
  match n with
  | O => best_server
  | S n' =>
      best_offset_loop slist n' (cserver + 1)
        (best_offset_body slist cserver best_server)
  end.

Definition best_offset_server (slist : list ntp_server_results) (nservers : Z) : Z :=
  let best_server := best_offset_loop slist (Z.to_nat nservers) 0 (-1) in
  if 0 <=? best_server then best_server else -1.

(** ** Outcomes of the effectful code *)

(** Modelled from the spec: the type [mp_state_enum] of [states.h], which
    is not among the sources.  The constructors are the states the code
    names; they are the classifications "ok", "warning", "critical" and
    "unknown" of the interface. *)
Inductive mp_state_enum :=
| STATE_OK | STATE_WARNING | STATE_CRITICAL | STATE_UNKNOWN.

(** What a piece of [offset_request] ends with: a value, a call of
    [die (state, message)], or a store outside the array
    [offset[AVG_NUM]] or outside the [num_hosts] slots of [servers] and
    [req].

    Modelled from the spec: [die] of [utils.h] is not among the sources; a
    fatal condition ends the whole run with the given state as its
    classification and the message as its output, never a crash.  The
    messages are kept without their final newline. *)
Inductive outcome (A : Type) : Type :=
| Ret (a : A)
| Die (state : mp_state_enum) (message : string)
| OutOfBounds.
Arguments Ret {A} a.
Arguments Die {A} state message.
Arguments OutOfBounds {A}.

Definition bind {A B : Type} (m : outcome A) (f : A -> outcome B) : outcome B :=
  match m with
  | Ret a => f a
  | Die s msg => Die s msg
  | OutOfBounds => OutOfBounds
  end.

Notation "'let*' x ':=' m 'in' k" := (bind m (fun x => k))
  (at level 10, x name, m at level 100, k at level 200).

(** ** The environment of one loop iteration *)

Record iter_env := mk_env {
  env_time : Z;                          (* time(NULL) at the top of the body *)
  env_send_tv : timeval;                 (* gettimeofday in setup_request *)
  env_poll : Z;                          (* return value of poll *)
  env_pollin : nat -> bool;              (* ufds[i].revents & POLLIN *)
  env_read : nat -> option (list byte);  (* the datagram read from socket i;
                                            None when read fails *)
  env_recv_tv : nat -> timeval           (* gettimeofday after that read *)
}.

(** What the program did on the network, in order. *)
Inductive io_event :=
| Sent (i : nat) (m : ntp_message)
| Received (i : nat) (m : ntp_message) (recv_time : timeval).

(** [read(fd, &req[i], sizeof(ntp_message))]: at most 48 bytes of the
    datagram overwrite the start of the buffer; the return value is ignored,
    so the bytes the datagram does not cover keep their previous content. *)
Definition read_into (buf : ntp_message) (r : option (list byte)) : ntp_message :=
  match r with
  | None => buf
  | Some d =>
      take sizeof_ntp_message d ++ drop (length (take sizeof_ntp_message d)) buf
  end.

(** [offset[respnum] = v] on the array [double offset[AVG_NUM]]. *)
Definition store_offset (arr : list float) (respnum : Z) (v : float)
  : option (list float) :=
  if (0 <=? respnum) && (respnum <? AVG_NUM)
  then Some (<[Z.to_nat respnum := v]> arr)
  else None.

(** ** The variables of offset_request *)

Record sampler := mk_sampler {
  servers : list ntp_server_results;
  req : list ntp_message;
  now_time : Z;
  servers_completed : Z;
  one_read : bool;
  io_log : list io_event            (* ghost: the trace of writes and reads *)
}.

(** 1 for a peer that has all its [AVG_NUM] responses, 0 for another. *)
Definition completed_bit (s : ntp_server_results) : Z :=
  if num_responses s =? AVG_NUM then 1 else 0.

(** The number of peers that have all their [AVG_NUM] responses. *)
Fixpoint count_completed (l : list ntp_server_results) : Z :=
  match l with
  | [] => 0
  | s :: l' => completed_bit s + count_completed l'
  end.

Section OffsetRequest.

(** The number of addresses [getaddrinfo] returned. *)
Variable num_hosts : nat.
(** The global [socket_timeout] declared in [netutils.h] (not among the
    sources), set by [-t]; [socket_timeout / 2] is the C division, which
    truncates ([Z.quot]). *)
Variable socket_timeout : Z.
(** The argument [time_offset]. *)
Variable time_offset : Z.
(** [start_ts = time(NULL)] before the loop. *)
Variable start_ts : Z.
(** The content of the [malloc]ed array [req] before anything is stored. *)
Variable req0 : nat -> ntp_message.

Definition init_sampler : sampler :=
  {| servers := replicate num_hosts zero_results;
     req := map req0 (seq 0 num_hosts);
     now_time := start_ts;
     servers_completed := 0;
     one_read := false;
     io_log := [] |}.

(** The condition of the [while]. *)
Definition loop_cond (st : sampler) : bool :=
  (servers_completed st <? Z.of_nat num_hosts)
  && (now_time st - start_ts <=? Z.quot socket_timeout 2).

(** The test of the first [for]: has peer [s] no request pending since
    [now] and fewer than [AVG_NUM] responses? *)
Definition sendable (now : Z) (s : ntp_server_results) : bool :=
  (waiting s <? now) && (num_responses s <? AVG_NUM).

(** [setup_request(&req[i]); write(socklist[i], &req[i], ...);
    servers[i].waiting = now_time;] for peer [i], whose record is [s]. *)
Definition send_request (i : nat) (s : ntp_server_results) (t : timeval)
    (st : sampler) : sampler :=
  let m := setup_request t in
  {| servers :=
       <[i := mk_results (now_time st) (num_responses s) (stratum s)
                (rtdelay s) (rtdisp s) (offset s) (flags s)]> (servers st);
     req := <[i := m]> (req st);
     now_time := now_time st;
     servers_completed := servers_completed st;
     one_read := one_read st;
     io_log := io_log st ++ [Sent i m] |}.

(** The first [for] of the body: the scan that sends one request and
    breaks.  [n] iterations are left, [i] is the loop index. *)
Fixpoint send_loop (n : nat) (i : nat) (t : timeval) (st : sampler) : sampler :=
  match n with
  | O => st
  | S n' =>
      match servers st !! i with
      | Some s =>
          if sendable (now_time st) s then send_request i s t st
          else send_loop n' (S i) t st
      | None => st
      end
  end.

(** The body of the [if] in the second [for]: one read from peer [i]. *)
Definition recv_one (e : iter_env) (i : nat) (st : sampler) : outcome sampler :=
  match servers st !! i, req st !! i with
  | Some s, Some buf =>
      let m := read_into buf (env_read e i) in
      let recv_time := env_recv_tv e i in
      let respnum := num_responses s in
      match store_offset (offset s) respnum
              (calc_offset m recv_time + Z2double time_offset)%float with
      | Some offset' =>
          Ret {| servers :=
                   <[i := mk_results 0 (respnum + 1) (msg_stratum m)
                            (NTP32asDOUBLE m off_rtdelay) (NTP32asDOUBLE m off_rtdisp)
                            offset' (msg_flags m)]> (servers st);
                 req := <[i := m]> (req st);
                 now_time := now_time st;
                 servers_completed :=
                   (if respnum + 1 =? AVG_NUM then servers_completed st + 1
                    else servers_completed st);
                 one_read := true;
                 io_log := io_log st ++ [Received i m recv_time] |}
      | None => OutOfBounds
      end
  | _, _ => OutOfBounds
  end.

(** The second [for]: [for (i = 0; servers_readable && i < num_hosts; i++)]. *)
Fixpoint recv_loop (e : iter_env) (n : nat) (i : nat) (servers_readable : Z)
    (st : sampler) : outcome sampler :=
  match n with
  | O => Ret st
  | S n' =>
      if servers_readable =? 0 then Ret st
      else
        match servers st !! i with
        | Some s =>
            if env_pollin e i && (num_responses s <? AVG_NUM) then
              let* st' := recv_one e i st in
              recv_loop e n' (S i) (servers_readable - 1) st'
            else recv_loop e n' (S i) servers_readable st
        | None => OutOfBounds
        end
  end.

Definition set_now_time (t : Z) (st : sampler) : sampler :=
  {| servers := servers st; req := req st; now_time := t;
     servers_completed := servers_completed st; one_read := one_read st;
     io_log := io_log st |}.

(** The body of the [while]. *)
Definition loop_body (e : iter_env) (st : sampler) : outcome sampler :=
  let st1 := set_now_time (env_time e) st in
  let st2 := send_loop num_hosts 0 (env_send_tv e) st1 in
  if env_poll e =? -1 then Die STATE_UNKNOWN "communication errors"
  else recv_loop e num_hosts 0 (env_poll e) st2.

(** The [while] loop.  [env k] is the environment of iteration [k]; the
    result is [None] when the loop is still running after [fuel]
    iterations, [Some (Ret st)] when the condition became false in [st]. *)
Fixpoint sampling_loop (fuel : nat) (env : nat -> iter_env) (k : nat)
    (st : sampler) : option (outcome sampler) :=
  if loop_cond st then
    match fuel with
    | O => None
    | S fuel' =>
        match loop_body (env k) st with
        | Ret st' => sampling_loop fuel' env (S k) st'
        | Die s msg => Some (Die s msg)
        | OutOfBounds => Some OutOfBounds
        end
    end
  else Some (Ret st).

(** [j] bodies in a row, without the test of the condition. *)
Fixpoint iterate_body (j : nat) (env : nat -> iter_env) (k : nat)
    (st : sampler) : outcome sampler :=
  match j with
  | O => Ret st
  | S j' => let* st' := loop_body (env k) st in iterate_body j' env (S k) st'
  end.

(** The [for] that sums the offsets of the chosen peer. *)
Fixpoint sum_offsets (s : ntp_server_results) (n : nat) (i : Z)
    (avg_offset : float) : float :=
  match n with
  | O => avg_offset
  | S n' => sum_offsets s n' (i + 1) (avg_offset + nth (Z.to_nat i) (offset s) 0)%float
  end.

(** The code after the loop: the returned average and [*status]. *)
Definition offset_result (st : sampler) (status : mp_state_enum)
  : outcome (float * mp_state_enum) :=
  if negb (one_read st) then
    Die STATE_CRITICAL "NTP CRITICAL: No response from NTP server"
  else
    let best_index := best_offset_server (servers st) (Z.of_nat num_hosts) in
    if best_index <? 0 then Ret (0%float, STATE_UNKNOWN)
    else
      let s := srv (servers st) best_index in
      Ret ((sum_offsets s (Z.to_nat (num_responses s)) 0 0
            / Z2double (num_responses s))%float, status).

(** [offset_request], from the start of the loop on. *)
Definition offset_request (fuel : nat) (env : nat -> iter_env)
    (status : mp_state_enum) : option (outcome (float * mp_state_enum)) :=
  match sampling_loop fuel env 0 init_sampler with
  | None => None
  | Some (Ret st) => Some (offset_result st status)
  | Some (Die s msg) => Some (Die s msg)
  | Some OutOfBounds => Some OutOfBounds
  end.

(** ** The trace and the invariant of the loop *)

(** The buffer and receive time of a read from peer [i]. *)
Definition reception (i : nat) (ev : io_event) : option (ntp_message * timeval) :=
  match ev with
  | Received j m recv_time => if Nat.eqb i j then Some (m, recv_time) else None
  | Sent _ _ => None
  end.

(** Everything read from peer [i], oldest first. *)
Definition receptions (i : nat) (log : list io_event)
  : list (ntp_message * timeval) :=
  omap (reception i) log.

Definition sent_to (ev : io_event) : option nat :=
  match ev with
  | Sent i _ => Some i
  | Received _ _ _ => None
  end.

(** The peers requests were written to, oldest first. *)
Definition sends (log : list io_event) : list nat := omap sent_to log.

(** The offset sample of one response: the four-timestamp formula on the
    decoded timestamps of the buffer and the local receive time, plus the
    correction [time_offset]. *)
Definition sample_of (r : ntp_message * timeval) : float :=
  let client_transmit := NTP64asDOUBLE (field64 (fst r) off_origts) in
  let peer_receive := NTP64asDOUBLE (field64 (fst r) off_rxts) in
  let peer_transmit := NTP64asDOUBLE (field64 (fst r) off_txts) in
  let client_receive := TVasDOUBLE (snd r) in
  (((peer_transmit - client_receive) + (peer_receive - client_transmit)) / 2
   + Z2double time_offset)%float.

Record peer_inv (log : list io_event) (i : nat) (s : ntp_server_results)
  : Prop := mk_peer_inv {
  pi_count : num_responses s = Z.of_nat (length (receptions i log));
  pi_bound : num_responses s <= AVG_NUM;
  pi_length : length (offset s) = Z.to_nat AVG_NUM;
  pi_samples :
    take (Z.to_nat (num_responses s)) (offset s)
    = map sample_of (receptions i log);
  pi_stratum : stratum s <> 0 -> 0 < num_responses s
}.

Record sampler_inv (st : sampler) : Prop := mk_sampler_inv {
  si_servers : length (servers st) = num_hosts;
  si_req : length (req st) = num_hosts;
  si_peers : forall i s, servers st !! i = Some s -> peer_inv (io_log st) i s;
  si_completed : servers_completed st = count_completed (servers st);
  si_one_read :
    one_read st = true
    <-> exists i s, servers st !! i = Some s /\ 0 < num_responses s
}.

(** What ends the session according to the loop condition: every peer has
    [AVG_NUM] responses, or the last clock reading is past the budget. *)
Definition session_over (st : sampler) : Prop :=
  Forall (fun s => num_responses s = AVG_NUM) (servers st)
  \/ Z.quot socket_timeout 2 < now_time st - start_ts.

End OffsetRequest.

(** The arithmetic mean as the code computes it: the samples are added from
    left to right to 0 and the sum is divided by their number. *)
Definition fmean (l : list float) : float :=
  (fold_left PrimFloat.add l 0 / Z2double (Z.of_nat (length l)))%float.

(** A peer the selection skips. *)
Definition rejected (p : ntp_server_results) : bool :=
  (stratum p =? 0) || (LI (flags p) =? LI_ALARM).

(** [c] replaces the current best [b]. *)
Definition replaces (c b : ntp_server_results) : bool :=
  (stratum c <=? stratum b)
  && PrimFloat.leb (rtdisp c) (rtdisp b)
  && PrimFloat.ltb (rtdelay c) (rtdelay b).

(** The 64-bit value of 8 bytes read in wire order. *)
Definition u64_wire (n : list byte) : Z :=
  be32_at n 0 * 4294967296 + be32_at n 4.

(** ** Example sessions

    One peer, [socket_timeout = 10], no correction, started at second 100. *)

(** The array [req] before the first request: all zero. *)
Definition no_req (i : nat) : ntp_message := replicate sizeof_ntp_message x00.

(** A well-formed 48-byte response: no leap warning, version 4, mode 4,
    with the given stratum and timestamps. *)
Definition example_response (stratum : Z) (orig rx tx : timeval) : list byte :=
  [ x24; byte_of_Z stratum; x00; x00 ]
    ++ [ x00; x00; x00; x10 ] ++ [ x00; x00; x00; x20 ]
    ++ replicate 4 x00 ++ replicate 8 x00
    ++ TVtoNTP64 orig ++ TVtoNTP64 rx ++ TVtoNTP64 tx.

(** Iteration [k] runs at second [100 + k]; the peer answers every request
    within the iteration, with a clock a quarter of a second ahead. *)
Definition responsive_env (k : nat) : iter_env :=
  let now := 100 + Z.of_nat k in
  mk_env now (mk_timeval now 0) 1 (fun _ => true)
    (fun _ => Some (example_response 2 (mk_timeval now 0)
                      (mk_timeval now 300000) (mk_timeval now 300000)))
    (fun _ => mk_timeval now 100000).

(** Iteration [k] runs at second [100 + k]; nothing is ever readable. *)
Definition silent_env (k : nat) : iter_env :=
  let now := 100 + Z.of_nat k in
  mk_env now (mk_timeval now 0) 0 (fun _ => false) (fun _ => None)
    (fun _ => mk_timeval now 0).

(** [poll] fails in every iteration. *)
Definition poll_failure_env (k : nat) : iter_env :=
  mk_env 100 (mk_timeval 100 0) (-1) (fun _ => false) (fun _ => None)
    (fun _ => mk_timeval 100 0).

(** The peer answers the request with a datagram of one byte. *)
Definition short_datagram_env : iter_env :=
  mk_env 101 (mk_timeval 101 0) 1 (fun _ => true) (fun _ => Some [ x24 ])
    (fun _ => mk_timeval 101 500000).

(** The state a session leaves the loop with ([init_sampler] if it does
    not leave it within 10 iterations). *)
Definition final_state (env : nat -> iter_env) : sampler :=
  match sampling_loop 1 10 0 100 10 env 0 (init_sampler 1 100 no_req) with
  | Some (Ret st) => st
  | _ => init_sampler 1 100 no_req
  end.

(** ** The rest of the codec and of the callers *)

From Stdlib Require Uint63.

(** Conversion [(int)d] of a finite double: truncation toward zero.  (It is
    undefined in C when the result does not fit in an [int]; the code
    applies it to [0.5 + ntohl(R32(n)) / 4294.967296], which is below
    1000001.) *)
Definition double2int (d : float) : Z :=
  match Prim2SF d with
  | S754_finite s m e =>
      let a := if 0 <=? e then Z.pos m * 2 ^ e else Z.pos m / 2 ^ (- e) in
      if s then - a else a
  | _ => 0
  end.

(** Conversion of an [unsigned long] to [time_t] (a signed 64-bit type). *)
Definition long_of_ulong (z : Z) : Z :=
  if z <? 2 ^ (ULONG_BITS - 1) then z else z - 2 ^ ULONG_BITS.

(** [NTP64toTV(n, t)]: the time value stored in [t]. *)
Definition NTP64toTV (n : list byte) : timeval :=
  if u64_is_zero n then mk_timeval 0 0
  else mk_timeval (long_of_ulong (ntp64_whole (be32_at n 0)))
         (double2int (0.5 + Z2double (be32_at n 4) / 4294.967296)%float).

(** The fraction field [TVtoNTP64] stores for [tv_usec = u], and the
    microseconds [NTP64toTV] reads from the fraction field [lo]. *)
Definition frac_of_usec (u : Z) : Z :=
  double2u64 (4294.967296 * Z2double u + 0.5)%float.

Definition usec_of_frac (lo : Z) : Z :=
  double2int (0.5 + Z2double lo / 4294.967296)%float.

(** *** A checker for the microseconds

    The two conversions above are checked for each of the 1000000 values
    of [tv_usec] by evaluation.  The checker works on primitive integers
    and floats only; [trunc_fast] is the truncation of a positive normal
    double below 2^53, read off its mantissa and exponent. *)
Definition int_0 : Uint63.int := Eval vm_compute in Uint63.of_Z 0.
Definition int_2101 : Uint63.int := Eval vm_compute in Uint63.of_Z 2101.
Definition int_2154 : Uint63.int := Eval vm_compute in Uint63.of_Z 2154.
Definition int_2p32 : Uint63.int := Eval vm_compute in Uint63.of_Z (2 ^ 32).
Definition int_2p52 : Uint63.int := Eval vm_compute in Uint63.of_Z (2 ^ 52).
Definition int_2p53 : Uint63.int := Eval vm_compute in Uint63.of_Z (2 ^ 53).

Definition trunc_fast (f : float) : option Uint63.int :=
  if PrimFloat.is_nan f || PrimFloat.is_zero f || PrimFloat.is_infinity f
     || PrimFloat.get_sign f
  then None
  else
    let (r, se) := PrimFloat.frshiftexp f in
    let m := PrimFloat.normfr_mantissa r in
    if Uint63.leb int_2p52 m && Uint63.ltb m int_2p53
       && Uint63.leb int_2101 se && Uint63.leb se int_2154
    then Some (Uint63.lsr m (Uint63.sub int_2154 se))
    else None.

Definition usec_ok_fast (u : Z) : bool :=
  let ui := Uint63.of_Z u in
  match trunc_fast (4294.967296 * PrimFloat.of_uint63 ui + 0.5)%float with
  | Some lo =>
      Uint63.ltb lo int_2p32
      && match trunc_fast (0.5 + PrimFloat.of_uint63 lo / 4294.967296)%float with
         | Some u' => Uint63.eqb u' ui
         | None => false
         end
      && (Uint63.eqb ui int_0 || Uint63.ltb int_0 lo)
      && PrimFloat.ltb
           (abs (0.00000001 * (0.5 + PrimFloat.of_uint63 lo / 42.94967296)
                 - 0.000001 * PrimFloat.of_uint63 ui))
           0.00000001
  | None => false
  end.

(** [f u && f (u + 1) && ... && f (u + n - 1)] *)
Fixpoint check_range (f : Z -> bool) (n : nat) (u : Z) : bool :=
  match n with
  | O => true
  | S n' => f u && check_range f n' (u + 1)
  end.

(** A checker for the flag macros on one byte: the byte is made of its
    three fields, and its leap indicator is ALARM exactly from 0xc0 on. *)
Definition flag_fields_ok (y : Z) : bool :=
  (y =? LI y * 64 + VN y * 8 + MODE y)
  && (0 <=? LI y) && (LI y <? 4) && (0 <=? VN y) && (VN y <? 8)
  && (0 <=? MODE y) && (MODE y <? 8)
  && Bool.eqb (LI y =? LI_ALARM) (0xc0 <=? y).

(** [main] from the call of [offset_request] on: the state the process
    exits with.  [r] is what [offset_request] ended with, called with
    [offset_result = STATE_OK]; [quiet] is [config.quiet]; [get_status]
    stands for [get_status (., config.offset_thresholds)] of [utils.h],
    which is not among the sources. *)
Definition main_result (quiet : bool) (get_status : float -> mp_state_enum)
    (r : outcome (float * mp_state_enum)) : outcome mp_state_enum :=
  let* x := r in
  Ret (match snd x with
       | STATE_UNKNOWN => if negb quiet then STATE_UNKNOWN else STATE_CRITICAL
       | _ => get_status (abs (fst x))
       end).

(** *** More example sessions *)

(** The value an outcome returned, [d] when it returned none. *)
Definition ret_or {A : Type} (d : A) (o : outcome A) : A :=
  match o with
  | Ret a => a
  | _ => d
  end.

(** Iteration [k] runs at second [100 + k]; the peer answers every request
    within the iteration, but with leap indicator ALARM (flags 0xe4). *)
Definition unsynchronised_env (k : nat) : iter_env :=
  let now := 100 + Z.of_nat k in
  mk_env now (mk_timeval now 0) 1 (fun _ => true)
    (fun _ => Some (byte_of_Z 0xe4
                      :: drop 1 (example_response 2 (mk_timeval now 0)
                                   (mk_timeval now 300000) (mk_timeval now 300000))))
    (fun _ => mk_timeval now 100000).

(** Every read fails. *)
Definition failing_read_env : iter_env :=
  mk_env 101 (mk_timeval 101 0) 1 (fun _ => true) (fun _ => None)
    (fun _ => mk_timeval 101 500000).

(** *** The start of offset_request

    What the calls before the loop return.  The result of [connect] is left
    out: it only decides whether [ufds[i]] is filled in, which is part of
    what [poll] reports later, and [poll] is the environment's. *)
Record setup_env := mk_setup {
  ga_result : Z;              (* the return value of getaddrinfo *)
  ga_strerror : string;       (* gai_strerror (ga_result) *)
  ga_hosts : nat;             (* the number of addresses in the list *)
  malloc_req : bool;          (* has malloc returned memory for req? *)
  malloc_socklist : bool;     (* ... for socklist? *)
  malloc_ufds : bool;         (* ... for ufds? *)
  malloc_servers : bool;      (* ... for servers? *)
  socket_result : nat -> Z    (* the return value of socket for address i *)
}.

(** The [for] that opens the sockets, with [n] addresses left. *)
Fixpoint open_sockets (se : setup_env) (n : nat) (i : nat) : outcome unit :=
  match n with
  | O => Ret tt
  | S n' =>
      if socket_result se i =? -1
      then Die STATE_UNKNOWN "can not create new socket"
      else open_sockets se n' (S i)
  end.

(** [offset_request] from its first line: name resolution, the four
    allocations and the sockets, then the loop and the rest. *)
Definition offset_request_whole (host : string) (se : setup_env)
    (socket_timeout time_offset start_ts : Z) (req0 : nat -> ntp_message)
    (fuel : nat) (env : nat -> iter_env) (status : mp_state_enum)
  : option (outcome (float * mp_state_enum)) :=
  if negb (ga_result se =? 0) then
    Some (Die STATE_UNKNOWN
            (String.append "error getting address for "
               (String.append host (String.append ": " (ga_strerror se)))))
  else if negb (malloc_req se) then
    Some (Die STATE_UNKNOWN "can not allocate ntp message array")
  else if negb (malloc_socklist se) then
    Some (Die STATE_UNKNOWN "can not allocate socket array")
  else if negb (malloc_ufds se) then
    Some (Die STATE_UNKNOWN "can not allocate socket array")
  else if negb (malloc_servers se) then
    Some (Die STATE_UNKNOWN "can not allocate server array")
  else
    match open_sockets se (ga_hosts se) 0 with
    | Ret _ =>
        offset_request (ga_hosts se) socket_timeout time_offset start_ts req0
          fuel env status
    | Die s msg => Some (Die s msg)
    | OutOfBounds => Some OutOfBounds
    end.

(** * Properties *)

(** ** Selection of the best server *)

Lemma srv_app_l (l l' : list ntp_server_results) (i : Z) :
  0 <= i < Z.of_nat (length l) -> srv (l ++ l') i = srv l i.
Proof.
  intros Hi. unfold srv. apply app_nth1. lia.
Qed.

Lemma srv_app_last (l : list ntp_server_results) (p : ntp_server_results) :
  srv (l ++ [p]) (Z.of_nat (length l)) = p.
Proof.
  unfold srv. rewrite Nat2Z.id. apply nth_middle.
Qed.

Lemma best_offset_body_cases (slist : list ntp_server_results) (c b : Z) :
  best_offset_body slist c b =
    if rejected (srv slist c) then b
    else if b =? -1 then c
    else if replaces (srv slist c) (srv slist b) then c else b.
Proof.
  unfold best_offset_body, rejected, replaces.
  destruct (stratum (srv slist c) =? 0); [reflexivity|].
  destruct (LI (flags (srv slist c)) =? LI_ALARM); [reflexivity|]. cbn [orb].
  destruct (b =? -1); [reflexivity|].
  destruct (stratum (srv slist c) <=? stratum (srv slist b)); [|reflexivity].
  destruct (PrimFloat.leb _ _); [|reflexivity].
  destruct (PrimFloat.ltb _ _); reflexivity.
Qed.

Lemma best_offset_body_range (slist : list ntp_server_results) (c b : Z) :
  -1 <= b < c -> -1 <= best_offset_body slist c b < c + 1.
Proof.
  intros Hb. rewrite best_offset_body_cases.
  repeat match goal with |- context [if ?x then _ else _] => destruct x end; lia.
Qed.

Lemma best_offset_loop_range (slist : list ntp_server_results) (n : nat) :
  forall c b, -1 <= b < c ->
    -1 <= best_offset_loop slist n c b < c + Z.of_nat n.
Proof.
  induction n as [|n IH]; intros c b Hb; cbn [best_offset_loop].
  - lia.
  - pose proof (best_offset_body_range slist c b Hb) as Hr.
    specialize (IH (c + 1) _ Hr). lia.
Qed.

Lemma best_offset_loop_plus (slist : list ntp_server_results) (n m : nat) :
  forall c b,
    best_offset_loop slist (n + m) c b =
    best_offset_loop slist m (c + Z.of_nat n) (best_offset_loop slist n c b).
Proof.
  induction n as [|n IH]; intros c b.
  - cbn. f_equal. lia.
  - cbn [Nat.add best_offset_loop]. rewrite IH. f_equal. lia.
Qed.

Lemma best_offset_body_app (l l' : list ntp_server_results) (c b : Z) :
  0 <= c < Z.of_nat (length l) -> -1 <= b < c ->
  best_offset_body (l ++ l') c b = best_offset_body l c b.
Proof.
  intros Hc Hb. rewrite !best_offset_body_cases, srv_app_l by lia.
  destruct (rejected (srv l c)); [reflexivity|].
  destruct (b =? -1) eqn:E; [reflexivity|].
  rewrite srv_app_l by lia. reflexivity.
Qed.

Lemma best_offset_loop_app (l l' : list ntp_server_results) (n : nat) :
  forall c b, 0 <= c -> -1 <= b < c -> c + Z.of_nat n <= Z.of_nat (length l) ->
    best_offset_loop (l ++ l') n c b = best_offset_loop l n c b.
Proof.
  induction n as [|n IH]; intros c b Hc Hb Hn; cbn [best_offset_loop].
  - reflexivity.
  - rewrite best_offset_body_app by lia.
    apply IH; [lia | apply best_offset_body_range; lia | lia].
Qed.

Lemma best_offset_server_loop (slist : list ntp_server_results) (n : nat) :
  best_offset_server slist (Z.of_nat n) = best_offset_loop slist n 0 (-1).
Proof.
  unfold best_offset_server. rewrite Nat2Z.id.
  pose proof (best_offset_loop_range slist n 0 (-1) ltac:(lia)) as Hr.
  destruct (0 <=? _) eqn:E; [reflexivity|]. lia.
Qed.

Lemma best_offset_server_snoc (slist : list ntp_server_results)
    (p : ntp_server_results) :
  best_offset_server (slist ++ [p]) (Z.of_nat (length slist) + 1) =
    let b := best_offset_server slist (Z.of_nat (length slist)) in
    if rejected p then b
    else if b =? -1 then Z.of_nat (length slist)
    else if replaces p (srv slist b) then Z.of_nat (length slist) else b.
Proof.
  replace (Z.of_nat (length slist) + 1) with (Z.of_nat (length slist + 1)) by lia.
  rewrite !best_offset_server_loop, best_offset_loop_plus.
  cbn [best_offset_loop]. rewrite best_offset_loop_app by lia.
  rewrite Z.add_0_l, best_offset_body_cases, srv_app_last. cbv zeta.
  pose proof (best_offset_loop_range slist (length slist) 0 (-1) ltac:(lia)) as Hr.
  destruct (rejected p); [reflexivity|].
  destruct (_ =? -1) eqn:E; [reflexivity|].
  rewrite srv_app_l by lia. reflexivity.
Qed.

Lemma best_offset_server_select (slist : list ntp_server_results) :
  let b := best_offset_server slist (Z.of_nat (length slist)) in
  (b = -1 <-> Forall (fun p => rejected p = true) slist)
  /\ (b <> -1 -> 0 <= b < Z.of_nat (length slist) /\ rejected (srv slist b) = false).
Proof.
  induction slist as [|p slist IH] using rev_ind.
  - cbn. split; [split; [constructor | reflexivity] | intros H; contradiction H; reflexivity].
  - rewrite length_app. cbn [length].
    replace (Z.of_nat (length slist + 1)) with (Z.of_nat (length slist) + 1) by lia.
    rewrite best_offset_server_snoc. cbv zeta in *.
    destruct IH as [IH1 IH2].
    set (b := best_offset_server slist (Z.of_nat (length slist))) in *.
    rewrite Forall_app, Forall_singleton.
    destruct (rejected p) eqn:Hp.
    + split; [rewrite IH1; tauto|].
      intros Hb. destruct (IH2 Hb) as [Hr Hj].
      rewrite srv_app_l by lia. split; [lia | assumption].
    + destruct (b =? -1) eqn:Eb.
      * split; [split; [lia | intros [_ H]; discriminate H]|].
        intros _. rewrite srv_app_last. split; [lia | assumption].
      * destruct (replaces p (srv slist b)).
        -- split; [split; [lia | intros [_ H]; discriminate H]|].
           intros _. rewrite srv_app_last. split; [lia | assumption].
        -- split; [split; [lia | intros [_ H]; discriminate H]|].
           intros Hb. destruct (IH2 Hb) as [Hr Hj].
           rewrite srv_app_l by lia. split; [lia | assumption].
Qed.

(** C1. [best_offset_server] is a left-to-right pass over the list of peer
    results: on the empty list nothing is selected (-1); appending a peer
    [p] to a list keeps the selection when [p] has stratum 0 or leap
    indicator ALARM, selects [p] when nothing was selected so far, and
    otherwise selects [p] exactly when its stratum is <= and its dispersion
    is <= and its delay is < those of the current best; the result is -1
    exactly when every peer is rejected (in particular for the empty list),
    and any other result is the index of a peer that is not rejected. *)
Theorem best_offset_server_left_to_right (slist : list ntp_server_results) :
  let n := Z.of_nat (length slist) in
  let b := best_offset_server slist n in
  best_offset_server [] 0 = -1
  /\ (forall p,
        best_offset_server (slist ++ [p]) (n + 1) =
          if (stratum p =? 0) || (LI (flags p) =? LI_ALARM) then b
          else if b =? -1 then n
          else if (stratum p <=? stratum (srv slist b))
                  && PrimFloat.leb (rtdisp p) (rtdisp (srv slist b))
                  && PrimFloat.ltb (rtdelay p) (rtdelay (srv slist b))
               then n else b)
  /\ (b = -1 <->
      Forall (fun p => stratum p = 0 \/ LI (flags p) = LI_ALARM) slist)
  /\ (b <> -1 ->
      0 <= b < n /\ stratum (srv slist b) <> 0
      /\ LI (flags (srv slist b)) <> LI_ALARM).
Proof.
  cbv zeta. split; [reflexivity|]. split; [|split].
  - intros p. apply best_offset_server_snoc.
  - rewrite (proj1 (best_offset_server_select slist)).
    apply Forall_iff. intros p. unfold rejected. rewrite orb_true_iff. lia.
  - intros Hb. destruct (proj2 (best_offset_server_select slist) Hb) as [Hr Hj].
    split; [assumption|]. unfold rejected in Hj. apply orb_false_iff in Hj. lia.
Qed.

(** ** The fixed-point codec *)

Lemma byte_val_range (b : byte) : 0 <= byte_val b < 256.
Proof.
  unfold byte_val. pose proof (Byte.to_N_bounded b) as H. lia.
Qed.

Lemma byte_val_of_Z (z : Z) : byte_val (byte_of_Z z) = z mod 256.
Proof.
  unfold byte_val, byte_of_Z.
  pose proof (Z.mod_pos_bound z 256 ltac:(lia)) as Hm.
  destruct (Byte.of_N (Z.to_N (z mod 256))) as [b|] eqn:E.
  - apply Byte.to_of_N in E. lia.
  - apply Byte.of_N_None_iff in E. lia.
Qed.

Lemma be32_at_bytes (v : Z) (rest : list byte) :
  be32_at (be32_bytes v ++ rest) 0 = v mod 4294967296.
Proof.
  unfold be32_at, be16_at, byte_at, be32_bytes. cbn [app nth Nat.add].
  rewrite !byte_val_of_Z.
  Z.to_euclidean_division_equations. lia.
Qed.

Lemma u64_is_zero_wire (n : list byte) :
  length n = 8%nat -> (u64_is_zero n = true <-> u64_wire n = 0).
Proof.
  intros Hl.
  do 8 (destruct n as [|? n]; [discriminate Hl|]).
  destruct n; [|discriminate Hl].
  unfold u64_is_zero, u64_wire, be32_at, be16_at, byte_at.
  cbn [forallb nth Nat.add].
  clear Hl.
  repeat match goal with
         | b : byte |- _ =>
             pose proof (byte_val_range b); generalize dependent (byte_val b);
             clear b; intros
         end.
  rewrite !andb_true_iff, !Z.eqb_eq. lia.
Qed.

(** C4 (amended). The epoch difference the codec uses is 2,208,988,800
    seconds, which is the constant 0x83AA7E80 (and the number of seconds of
    the 70 years, 17 of them leap years, from 1900 to 1970):
    [NTP64asDOUBLE] subtracts it from the whole seconds of a timestamp and
    [TVtoNTP64] adds it to the seconds of a time value that is not the
    zero time. *)
Theorem EPOCHDIFF_is_2208988800 (hi : Z) (t : timeval) :
  (tv_usec t =? 0) && (tv_sec t =? 0) = false ->
  EPOCHDIFF = 2208988800
  /\ 2208988800 = 0x83aa7e80
  /\ 2208988800 = (70 * 365 + 17) * 86400
  /\ ntp64_whole hi = (hi - 2208988800) mod 2 ^ 64
  /\ be32_at (TVtoNTP64 t) 0 = (tv_sec t + 2208988800) mod 2 ^ 32.
Proof.
  intros Ht. repeat split; try reflexivity.
  unfold TVtoNTP64. rewrite Ht, be32_at_bytes.
  change EPOCHDIFF with 2208988800. change (2 ^ ULONG_BITS) with 18446744073709551616.
  change (2 ^ 32) with 4294967296.
  apply Z.mod_mod_divide. exists 4294967296. reflexivity.
Qed.

Lemma EPOCHDIFF_is_2208988800_witness :
  (tv_usec (mk_timeval 1000 500000) =? 0) && (tv_sec (mk_timeval 1000 500000) =? 0) = false
  /\ EPOCHDIFF = 2208988800
  /\ ntp64_whole 3900000000 = 1691011200
  /\ be32_at (TVtoNTP64 (mk_timeval 1000 500000)) 0 = 2208989800.
Proof.
  pose proof (EPOCHDIFF_is_2208988800 3900000000 (mk_timeval 1000 500000) eq_refl)
    as (H1 & _ & _ & H2 & H3).
  split; [reflexivity|]. split; [exact H1|]. split; [exact H2 | exact H3].
Defined.

(** C4, as stated, fails: the constant 0x83AA7E80 the code uses is not
    2,085,978,496. *)
Lemma EPOCHDIFF_is_not_2085978496 :
  EPOCHDIFF = 0x83aa7e80 /\ (EPOCHDIFF =? 2085978496) = false.
Proof.
  split; reflexivity.
Qed.

(** What the 64-bit codec does with the unset timestamp, and with every
    other raw value: 8 zero bytes decode to 0.0 (and not to what the formula
    would give for them), the zero time value (no seconds, no microseconds)
    encodes to 8 zero bytes, and every other raw value decodes to the whole
    seconds minus [EPOCHDIFF], computed in [unsigned long] and so modulo
    2^64 (the plain difference only when the seconds are at least
    [EPOCHDIFF]), plus the fraction [1e-8 * (0.5 + low / 42.94967296)]. *)
Lemma NTP64_zero_is_unset (n : list byte) :
  length n = 8%nat ->
  (u64_wire n = 0 -> NTP64asDOUBLE n = 0%float)
  /\ (u64_wire n <> 0 ->
      NTP64asDOUBLE n
      = (Z2double ((be32_at n 0 - EPOCHDIFF) mod 2 ^ 64)
         + 0.00000001 * (0.5 + Z2double (be32_at n 4) / 42.94967296))%float
      /\ (EPOCHDIFF <= be32_at n 0 ->
          (be32_at n 0 - EPOCHDIFF) mod 2 ^ 64 = be32_at n 0 - EPOCHDIFF))
  /\ TVtoNTP64 (mk_timeval 0 0) = replicate 8 x00
  /\ u64_wire (TVtoNTP64 (mk_timeval 0 0)) = 0
  /\ NTP64asDOUBLE (TVtoNTP64 (mk_timeval 0 0)) = 0%float
  /\ PrimFloat.eqb (Z2double (ntp64_whole 0) + ntp64_frac 0) 0 = false.
Proof.
  intros Hl. pose proof (u64_is_zero_wire n Hl) as Hz.
  split; [|split; [|repeat split]].
  - intros H0. apply Hz in H0. unfold NTP64asDOUBLE. rewrite H0. reflexivity.
  - intros Hn. split.
    + unfold NTP64asDOUBLE. destruct (u64_is_zero n) eqn:E.
      * exfalso. apply Hn, Hz. reflexivity.
      * reflexivity.
    + intros Hge. apply Z.mod_small.
      assert (be32_at n 0 < 4294967296).
      { unfold be32_at, be16_at, byte_at.
        repeat match goal with
               | |- context [byte_val ?b] =>
                   pose proof (byte_val_range b); generalize dependent (byte_val b); intros
               end.
        lia. }
      change (2 ^ 64) with 18446744073709551616. unfold EPOCHDIFF in *. lia.
Qed.

(** C5. For a non-zero raw value whose seconds are below [EPOCHDIFF] the
    decode does not give the epoch-adjusted seconds: [NTP64asDOUBLE]
    subtracts in [unsigned long], the difference wraps by 2^64, and the
    raw value 00 00 00 00 00 00 00 01 decodes to 1.8446744071500562e19
    seconds instead of -2208988800 plus the fraction; [NTP64toTV] on the
    same bytes gives -2208988800 seconds. *)
Theorem NTP64asDOUBLE_wraps_below_EPOCHDIFF :
  let raw := [ x00; x00; x00; x00; x00; x00; x00; x01 ] in
  u64_wire raw = 1
  /\ be32_at raw 0 - EPOCHDIFF = - 2208988800
  /\ NTP64asDOUBLE raw = 1.8446744071500562e19%float
  /\ PrimFloat.ltb (NTP64asDOUBLE raw) 0 = false
  /\ NTP64toTV raw = mk_timeval (- 2208988800) 0
  /\ (forall hi, 0 <= hi < EPOCHDIFF ->
        ntp64_whole hi = hi - EPOCHDIFF + 2 ^ 64
        /\ long_of_ulong (ntp64_whole hi) = hi - EPOCHDIFF).
Proof.
  cbv zeta. do 5 (split; [vm_compute; reflexivity|]).
  intros hi Hhi. unfold ntp64_whole, long_of_ulong, EPOCHDIFF in *.
  change (2 ^ ULONG_BITS) with 18446744073709551616.
  change (2 ^ (ULONG_BITS - 1)) with 9223372036854775808.
  change (2 ^ 64) with 18446744073709551616.
  assert (H : (hi - 0x83aa7e80) mod 18446744073709551616
              = hi - 0x83aa7e80 + 18446744073709551616).
  { symmetry. apply (Z.mod_unique _ _ (-1)); lia. }
  rewrite H. split; [reflexivity|].
  destruct (Z.ltb_spec (hi - 0x83aa7e80 + 18446744073709551616) 9223372036854775808); lia.
Qed.

(** ** The sampling loop *)

(** Reduce the projections of a [sampler] and of an [ntp_server_results]
    built by a record expression, and nothing else. *)
Ltac fields :=
  cbn [servers req now_time servers_completed one_read io_log
       waiting num_responses stratum rtdelay rtdisp offset flags].

Lemma receptions_app (i : nat) (l1 l2 : list io_event) :
  receptions i (l1 ++ l2) = receptions i l1 ++ receptions i l2.
Proof.
  apply omap_app.
Qed.

Lemma receptions_sent (i j : nat) (log : list io_event) (m : ntp_message) :
  receptions i (log ++ [Sent j m]) = receptions i log.
Proof.
  rewrite receptions_app. cbn. apply app_nil_r.
Qed.

Lemma receptions_received_eq (i : nat) (log : list io_event)
    (m : ntp_message) (tv : timeval) :
  receptions i (log ++ [Received i m tv]) = receptions i log ++ [(m, tv)].
Proof.
  rewrite receptions_app. unfold receptions at 2. cbn.
  rewrite Nat.eqb_refl. reflexivity.
Qed.

Lemma receptions_received_ne (i j : nat) (log : list io_event)
    (m : ntp_message) (tv : timeval) :
  i <> j -> receptions i (log ++ [Received j m tv]) = receptions i log.
Proof.
  intros Hij. rewrite receptions_app. unfold receptions at 2. cbn.
  apply Nat.eqb_neq in Hij. rewrite Hij. apply app_nil_r.
Qed.

Lemma sends_app (l1 l2 : list io_event) : sends (l1 ++ l2) = sends l1 ++ sends l2.
Proof.
  apply omap_app.
Qed.

Lemma count_completed_insert (l : list ntp_server_results) :
  forall (i : nat) (s s' : ntp_server_results),
    l !! i = Some s ->
    count_completed (<[i := s']> l)
    = count_completed l - completed_bit s + completed_bit s'.
Proof.
  induction l as [|x l IH]; intros [|i] s s' Hi; try discriminate Hi.
  - injection Hi as ->. cbn. lia.
  - cbn in Hi. cbn [count_completed]. change (<[S i:=s']> (x :: l)) with (x :: <[i:=s']> l).
    cbn [count_completed]. rewrite (IH i s s' Hi). lia.
Qed.

Lemma count_completed_range (l : list ntp_server_results) :
  0 <= count_completed l <= Z.of_nat (length l).
Proof.
  induction l as [|x l IH]; cbn [count_completed length].
  - lia.
  - unfold completed_bit. destruct (num_responses x =? AVG_NUM); lia.
Qed.

Lemma count_completed_all (l : list ntp_server_results) :
  count_completed l = Z.of_nat (length l)
  <-> Forall (fun s => num_responses s = AVG_NUM) l.
Proof.
  induction l as [|x l IH]; cbn [count_completed length].
  - split; [constructor | reflexivity].
  - pose proof (count_completed_range l) as Hr.
    rewrite Forall_cons. unfold completed_bit.
    destruct (num_responses x =? AVG_NUM) eqn:E.
    + apply Z.eqb_eq in E. rewrite <- IH. lia.
    + apply Z.eqb_neq in E. lia.
Qed.

Section Sampling.

Variable num_hosts : nat.
Variable socket_timeout time_offset start_ts : Z.
Variable req0 : nat -> ntp_message.

#[local] Abbreviation inv := (sampler_inv num_hosts time_offset).
#[local] Abbreviation body := (loop_body num_hosts time_offset).
#[local] Abbreviation init := (init_sampler num_hosts start_ts req0).
#[local] Abbreviation loop := (sampling_loop num_hosts socket_timeout time_offset start_ts).
#[local] Abbreviation cond := (loop_cond num_hosts socket_timeout start_ts).
#[local] Abbreviation iterate := (iterate_body num_hosts time_offset).
#[local] Abbreviation over := (session_over socket_timeout start_ts).

Lemma peer_inv_same (log log' : list io_event) (i : nat)
    (s s' : ntp_server_results) :
  receptions i log' = receptions i log ->
  num_responses s' = num_responses s ->
  offset s' = offset s ->
  stratum s' = stratum s ->
  peer_inv time_offset log i s -> peer_inv time_offset log' i s'.
Proof.
  intros Hr Hn Ho Hs [H1 H2 H3 H4 H5].
  constructor; rewrite ?Hr, ?Hn, ?Ho, ?Hs; assumption.
Qed.

Lemma inv_init : inv init.
Proof.
  constructor; cbn.
  - apply length_replicate.
  - rewrite length_map. apply length_seq.
  - intros i s Hs. apply lookup_replicate_1 in Hs as [-> _].
    constructor; [reflexivity | unfold AVG_NUM; cbn; lia | reflexivity | reflexivity | cbn; lia].
  - induction num_hosts as [|n IH]; cbn; [reflexivity|]. rewrite <- IH. reflexivity.
  - split; [discriminate|]. intros (i & s & Hs & Hpos).
    apply lookup_replicate_1 in Hs as [-> _]. cbn in Hpos. lia.
Qed.

Lemma inv_set_now_time (t : Z) (st : sampler) : inv st -> inv (set_now_time t st).
Proof.
  intros [H1 H2 H3 H4 H5]. constructor; cbn; assumption.
Qed.

Lemma inv_send_request (i : nat) (s : ntp_server_results) (t : timeval)
    (st : sampler) :
  servers st !! i = Some s -> inv st -> inv (send_request i s t st).
Proof.
  intros Hi [H1 H2 H3 H4 H5]. constructor; unfold send_request; fields.
  - rewrite length_insert. assumption.
  - rewrite length_insert. assumption.
  - intros j s' Hj. destruct (decide (i = j)) as [<-|Hne].
    + rewrite list_lookup_insert_eq in Hj by (eapply lookup_lt_Some; eassumption).
      injection Hj as <-.
      apply (peer_inv_same (io_log st) _ i s); try reflexivity.
      * apply receptions_sent.
      * apply H3. assumption.
    + rewrite list_lookup_insert_ne in Hj by assumption.
      apply (peer_inv_same (io_log st) _ j s'); try reflexivity.
      * apply receptions_sent.
      * apply H3. assumption.
  - rewrite (count_completed_insert _ _ _ _ Hi). unfold completed_bit. fields. lia.
  - rewrite H5. pose proof (lookup_lt_Some _ _ _ Hi) as Hlt.
    split; intros (j & s' & Hj & Hpos).
    + destruct (decide (i = j)) as [<-|Hne].
      * eexists i, _. split; [apply list_lookup_insert_eq; assumption|].
        fields. congruence.
      * exists j, s'. split; [|assumption].
        rewrite list_lookup_insert_ne by assumption. assumption.
    + destruct (decide (i = j)) as [<-|Hne].
      * rewrite list_lookup_insert_eq in Hj by assumption. injection Hj as <-.
        exists i, s. split; assumption.
      * rewrite list_lookup_insert_ne in Hj by assumption. exists j, s'. split; assumption.
Qed.

Lemma send_request_now_time (i : nat) (s : ntp_server_results) (t : timeval)
    (st : sampler) :
  now_time (send_request i s t st) = now_time st.
Proof.
  reflexivity.
Qed.

Lemma send_loop_inv (n : nat) :
  forall (i : nat) (t : timeval) (st : sampler),
    inv st -> inv (send_loop n i t st) /\ now_time (send_loop n i t st) = now_time st.
Proof.
  induction n as [|n IH]; intros i t st Hinv; cbn [send_loop].
  - split; [assumption | reflexivity].
  - destruct (servers st !! i) as [s|] eqn:Hi; [|split; [assumption | reflexivity]].
    destruct (sendable (now_time st) s).
    + split; [apply inv_send_request; assumption | reflexivity].
    + apply IH. assumption.
Qed.

(** One read from a peer below the sample target succeeds in storing the
    sample and keeps the invariant. *)
Lemma recv_one_inv (e : iter_env) (i : nat) (s : ntp_server_results)
    (st : sampler) :
  inv st -> servers st !! i = Some s -> num_responses s < AVG_NUM ->
  exists st', recv_one time_offset e i st = Ret st'
              /\ inv st' /\ now_time st' = now_time st.
Proof.
  intros Hinv Hi Hlt. pose proof Hinv as [H1 H2 H3 H4 H5].
  pose proof (H3 i s Hi) as [P1 P2 P3 P4 P5].
  assert (Hil : (i < num_hosts)%nat) by (rewrite <- H1; eapply lookup_lt_Some; eassumption).
  destruct (lookup_lt_is_Some_2 (req st) i ltac:(lia)) as [buf Hbuf].
  unfold recv_one. rewrite Hi, Hbuf. unfold store_offset.
  assert (Hge : 0 <= num_responses s) by lia.
  replace ((0 <=? num_responses s) && (num_responses s <? AVG_NUM)) with true
    by (symmetry; apply andb_true_iff; lia).
  eexists. split; [reflexivity|]. split; [|reflexivity].
  set (m := read_into buf (env_read e i)).
  set (tv := env_recv_tv e i).
  constructor; fields.
  - rewrite length_insert. assumption.
  - rewrite length_insert. assumption.
  - intros j s' Hj. destruct (decide (i = j)) as [<-|Hne].
    + rewrite list_lookup_insert_eq in Hj by lia. injection Hj as <-.
      constructor; fields.
      * rewrite receptions_received_eq, length_app. cbn [length]. lia.
      * lia.
      * rewrite length_insert. assumption.
      * rewrite receptions_received_eq, map_app. cbn [map].
        replace (Z.to_nat (num_responses s + 1)) with (S (Z.to_nat (num_responses s))) by lia.
        rewrite (take_S_r _ _ (calc_offset m tv + Z2double time_offset)%float).
        -- rewrite take_insert_ge by lia. rewrite P4. reflexivity.
        -- apply list_lookup_insert_eq. rewrite P3. unfold AVG_NUM in *. lia.
      * lia.
    + rewrite list_lookup_insert_ne in Hj by assumption.
      apply (peer_inv_same (io_log st) _ j s'); try reflexivity.
      * apply receptions_received_ne. congruence.
      * apply H3. assumption.
  - rewrite (count_completed_insert _ _ _ _ Hi). unfold completed_bit. fields.
    replace (num_responses s =? AVG_NUM) with false by (symmetry; apply Z.eqb_neq; lia).
    destruct (num_responses s + 1 =? AVG_NUM); lia.
  - split; [|reflexivity]. intros _. eexists i, _.
    split; [apply list_lookup_insert_eq; lia|]. fields. lia.
Qed.

Lemma recv_loop_inv (e : iter_env) (n : nat) :
  forall (i : nat) (servers_readable : Z) (st : sampler),
    inv st -> (i + n = num_hosts)%nat ->
    exists st', recv_loop time_offset e n i servers_readable st = Ret st'
                /\ inv st' /\ now_time st' = now_time st.
Proof.
  induction n as [|n IH]; intros i sr st Hinv Hn; cbn [recv_loop].
  - exists st. auto.
  - destruct (sr =? 0); [exists st; auto|].
    destruct (lookup_lt_is_Some_2 (servers st) i) as [s Hs].
    { rewrite (si_servers _ _ _ Hinv). lia. }
    rewrite Hs. destruct (env_pollin e i && (num_responses s <? AVG_NUM)) eqn:E.
    + apply andb_true_iff in E as [_ E]. apply Z.ltb_lt in E.
      destruct (recv_one_inv e i s st Hinv Hs E) as (st1 & -> & Hinv1 & Ht1).
      cbn [bind]. destruct (IH (S i) (sr - 1) st1 Hinv1 ltac:(lia)) as (st' & -> & Hinv' & Ht').
      exists st'. split; [reflexivity|]. split; [assumption | congruence].
    + apply IH; [assumption | lia].
Qed.

(** One loop iteration either dies on a failed [poll] or keeps the
    invariant; it never stores out of bounds. *)
Lemma loop_body_inv (e : iter_env) (st : sampler) :
  inv st ->
  (env_poll e = -1 /\ body e st = Die STATE_UNKNOWN "communication errors")
  \/ (env_poll e <> -1
      /\ exists st', body e st = Ret st' /\ inv st' /\ now_time st' = env_time e).
Proof.
  intros Hinv. unfold loop_body.
  destruct (env_poll e =? -1) eqn:E.
  - left. apply Z.eqb_eq in E. auto.
  - right. apply Z.eqb_neq in E. split; [assumption|].
    destruct (send_loop_inv num_hosts 0 (env_send_tv e) (set_now_time (env_time e) st)
                (inv_set_now_time _ _ Hinv)) as [Hinv2 Ht2].
    destruct (recv_loop_inv e num_hosts 0 (env_poll e) _ Hinv2 eq_refl)
      as (st' & Hr & Hinv' & Ht').
    exists st'. split; [exact Hr|]. split; [assumption|].
    rewrite Ht', Ht2. reflexivity.
Qed.

Lemma iterate_body_inv (env : nat -> iter_env) (j : nat) :
  forall (k : nat) (st : sampler),
    inv st ->
    match iterate j env k st with
    | Ret st' => inv st'
    | Die s _ => s = STATE_UNKNOWN /\ exists j', (j' < j)%nat /\ env_poll (env (k + j')%nat) = -1
    | OutOfBounds => False
    end.
Proof.
  induction j as [|j IH]; intros k st Hinv; cbn [iterate_body].
  - assumption.
  - destruct (loop_body_inv (env k) st Hinv) as [[Hp ->]|(_ & st' & -> & Hinv' & _)]; cbn [bind].
    + split; [reflexivity|]. exists 0%nat. rewrite Nat.add_0_r. split; [lia | assumption].
    + specialize (IH (S k) st' Hinv'). destruct (iterate j env (S k) st'); try assumption.
      destruct IH as [-> (j' & Hj' & Hp)]. split; [reflexivity|].
      exists (S j'). split; [lia|].
      replace (k + S j')%nat with (S k + j')%nat by lia. assumption.
Qed.

(** *** The send step *)

Lemma send_loop_cases (n : nat) :
  forall (i : nat) (t : timeval) (st : sampler),
    (i + n = length (servers st))%nat ->
    ((forall j s, (i <= j)%nat -> servers st !! j = Some s ->
                  sendable (now_time st) s = false)
     /\ send_loop n i t st = st)
    \/ (exists k s,
          (i <= k)%nat /\ servers st !! k = Some s
          /\ sendable (now_time st) s = true
          /\ (forall j s', (i <= j < k)%nat -> servers st !! j = Some s' ->
                           sendable (now_time st) s' = false)
          /\ send_loop n i t st = send_request k s t st).
Proof.
  induction n as [|n IH]; intros i t st Hn; cbn [send_loop].
  - left. split; [|reflexivity]. intros j s Hj Hs.
    apply lookup_lt_Some in Hs. lia.
  - destruct (lookup_lt_is_Some_2 (servers st) i ltac:(lia)) as [s Hs]. rewrite Hs.
    destruct (sendable (now_time st) s) eqn:E.
    + right. exists i, s. repeat split; try assumption; try lia.
    + destruct (IH (S i) t st ltac:(lia)) as [[Hall ->]|(k & s' & Hk & Hs' & Hsend & Hbefore & ->)].
      * left. split; [|reflexivity]. intros j s' Hj Hs'.
        destruct (decide (j = i)) as [->|Hne]; [congruence|].
        apply (Hall j s'); [lia | assumption].
      * right. exists k, s'. repeat split; try assumption; try lia.
        intros j s'' Hj Hs''.
        destruct (decide (j = i)) as [->|Hne]; [congruence|].
        apply (Hbefore j s''); [lia | assumption].
Qed.

Lemma recv_loop_sends (e : iter_env) (n : nat) :
  forall (i : nat) (servers_readable : Z) (st st' : sampler),
    recv_loop time_offset e n i servers_readable st = Ret st' ->
    sends (io_log st') = sends (io_log st).
Proof.
  induction n as [|n IH]; intros i sr st st' Hr; cbn [recv_loop] in Hr.
  - injection Hr as <-. reflexivity.
  - destruct (sr =? 0); [injection Hr as <-; reflexivity|].
    destruct (servers st !! i) as [s|] eqn:Hs; [|discriminate Hr].
    destruct (env_pollin e i && (num_responses s <? AVG_NUM)).
    + unfold recv_one in Hr. rewrite Hs in Hr.
      destruct (req st !! i) as [buf|]; [|discriminate Hr].
      destruct (store_offset _ _ _) as [offset'|]; [|discriminate Hr].
      cbn [bind] in Hr. apply IH in Hr. rewrite Hr. fields.
      rewrite sends_app. apply app_nil_r.
    + apply IH in Hr. assumption.
Qed.

(** C8. In one iteration of the sampling loop at most one request is
    written: the scan either finds no peer with [waiting < now_time] and
    fewer than [AVG_NUM] responses, and then nothing is sent and no record
    changes, or it sends one request to the first such peer in index order
    and sets that peer's [waiting] to [now_time]; the rest of the iteration
    sends nothing. *)
Theorem one_request_per_iteration (e : iter_env) (st : sampler) :
  length (servers st) = num_hosts ->
  let now := env_time e in
  let st1 := send_loop num_hosts 0 (env_send_tv e) (set_now_time now st) in
  (forall st', body e st = Ret st' -> sends (io_log st') = sends (io_log st1))
  /\ ((Forall (fun s => (waiting s <? now) && (num_responses s <? AVG_NUM) = false)
         (servers st)
       /\ sends (io_log st1) = sends (io_log st)
       /\ servers st1 = servers st)
      \/ (exists i s,
            servers st !! i = Some s
            /\ waiting s < now /\ num_responses s < AVG_NUM
            /\ (forall j s', (j < i)%nat -> servers st !! j = Some s' ->
                  ~ (waiting s' < now /\ num_responses s' < AVG_NUM))
            /\ sends (io_log st1) = sends (io_log st) ++ [i]
            /\ servers st1
               = <[i := mk_results now (num_responses s) (stratum s) (rtdelay s)
                          (rtdisp s) (offset s) (flags s)]> (servers st)
            /\ req st1 = <[i := setup_request (env_send_tv e)]> (req st))).
Proof.
  intros Hlen now st1. split.
  - intros st' Hb. unfold loop_body in Hb.
    destruct (env_poll e =? -1); [discriminate Hb|].
    apply recv_loop_sends in Hb. exact Hb.
  - destruct (send_loop_cases num_hosts 0 (env_send_tv e) (set_now_time now st)
                ltac:(cbn; lia)) as [[Hall Heq]|(k & s & _ & Hs & Hsend & Hbefore & Heq)];
      subst st1; rewrite Heq.
    + left. split; [|split; reflexivity].
      apply Forall_lookup. intros j s Hs. apply (Hall j s); [lia | exact Hs].
    + right. exists k, s. unfold sendable in *. fields.
      apply andb_true_iff in Hsend as [H1 H2].
      apply Z.ltb_lt in H1. apply Z.ltb_lt in H2. fold now in H1.
      split; [exact Hs|]. split; [exact H1|]. split; [exact H2|]. split.
      * intros j s' Hj Hs' [H3 H4].
        specialize (Hbefore j s' ltac:(lia) Hs'). cbn in Hbefore.
        apply andb_false_iff in Hbefore. fold now in Hbefore. lia.
      * unfold send_request. fields. rewrite sends_app.
        split; [reflexivity|]. split; reflexivity.
Qed.

(** *** The receive step *)

(** C6 (amended). The code does not look at what [read] returns: for a
    readable peer below the sample target, whatever the read delivers (a
    datagram of fewer than 48 bytes, or nothing at all), a sample is
    computed from the 48-byte buffer and stored at index [num_responses],
    stratum, dispersion, delay and flags are overwritten from the buffer,
    [waiting] is cleared and the response count grows by one.  The bytes of
    the buffer the datagram does not cover keep their previous content. *)
Theorem recv_one_ignores_length (e : iter_env) (i : nat)
    (s : ntp_server_results) (buf : ntp_message) (st : sampler) :
  servers st !! i = Some s -> req st !! i = Some buf ->
  0 <= num_responses s < AVG_NUM -> length (offset s) = Z.to_nat AVG_NUM ->
  let m := read_into buf (env_read e i) in
  (forall d, env_read e i = Some d -> (length d < 48)%nat ->
             m = d ++ drop (length d) buf)
  /\ (env_read e i = None -> m = buf)
  /\ exists st' s',
       recv_one time_offset e i st = Ret st'
       /\ servers st' !! i = Some s'
       /\ num_responses s' = num_responses s + 1
       /\ offset s' !! Z.to_nat (num_responses s)
          = Some (calc_offset m (env_recv_tv e i) + Z2double time_offset)%float
       /\ stratum s' = msg_stratum m
       /\ rtdisp s' = NTP32asDOUBLE m off_rtdisp
       /\ rtdelay s' = NTP32asDOUBLE m off_rtdelay
       /\ flags s' = msg_flags m
       /\ waiting s' = 0
       /\ one_read st' = true.
Proof.
  intros Hs Hbuf Hn Hlen m. split; [|split].
  - intros d Hd Hshort. subst m. rewrite Hd. unfold read_into, sizeof_ntp_message.
    rewrite take_ge by lia. reflexivity.
  - intros Hd. subst m. rewrite Hd. reflexivity.
  - unfold recv_one. rewrite Hs, Hbuf. fold m. unfold store_offset.
    replace ((0 <=? num_responses s) && (num_responses s <? AVG_NUM)) with true
      by (symmetry; apply andb_true_iff; lia).
    eexists. eexists. split; [reflexivity|]. fields.
    split; [apply list_lookup_insert_eq; eapply lookup_lt_Some; eassumption|].
    fields. split; [reflexivity|].
    split; [apply list_lookup_insert_eq; unfold AVG_NUM in *; lia|].
    repeat split; reflexivity.
Qed.

(** C10. Throughout the sampling loop every peer's response count stays
    between 0 and [AVG_NUM], the array [offset] keeps its [AVG_NUM] slots,
    and no iteration stores a sample outside of it: after any number of
    iterations from the initial state, under any environment, the loop
    either died on a failed [poll] or is in a state with these bounds. *)
Theorem num_responses_bounded (env : nat -> iter_env) (j : nat) :
  match iterate j env 0 init with
  | Ret st =>
      Forall (fun s => 0 <= num_responses s <= AVG_NUM
                       /\ length (offset s) = Z.to_nat AVG_NUM) (servers st)
  | Die s _ => s = STATE_UNKNOWN
  | OutOfBounds => False
  end.
Proof.
  pose proof (iterate_body_inv env j 0 init inv_init) as H.
  destruct (iterate j env 0 init) as [st|s msg|].
  - apply Forall_lookup. intros i s Hs.
    destruct (si_peers _ _ _ H i s Hs) as [P1 P2 P3 _ _].
    split; [lia | assumption].
  - apply H.
  - exact H.
Qed.

(** *** The loop as a whole *)

Lemma loop_cond_false_iff (st : sampler) :
  inv st -> (cond st = false <-> over st).
Proof.
  intros Hinv. unfold loop_cond, session_over.
  rewrite andb_false_iff, Z.ltb_ge, Z.leb_gt.
  rewrite (si_completed _ _ _ Hinv), <- count_completed_all.
  pose proof (count_completed_range (servers st)) as Hr.
  rewrite (si_servers _ _ _ Hinv) in *. lia.
Qed.

Lemma loop_cond_true_iff (st : sampler) :
  inv st -> (cond st = true <-> ~ over st).
Proof.
  intros Hinv. rewrite <- (loop_cond_false_iff st Hinv).
  destruct (cond st); split; congruence.
Qed.

Lemma sampling_loop_terminates (env : nat -> iter_env) (fuel : nat) :
  forall (k : nat) (st : sampler),
    inv st ->
    (exists j, (j < fuel)%nat
               /\ Z.quot socket_timeout 2 < env_time (env (k + j)%nat) - start_ts) ->
    exists r, loop fuel env k st = Some r.
Proof.
  induction fuel as [|fuel IH]; intros k st Hinv (j & Hj & Hlate).
  - lia.
  - cbn [sampling_loop]. destruct (cond st) eqn:Hc; [|eexists; reflexivity].
    destruct (loop_body_inv (env k) st Hinv) as [[_ ->]|(_ & st' & -> & Hinv' & Ht)];
      [eexists; reflexivity|].
    destruct j as [|j].
    + rewrite Nat.add_0_r in Hlate.
      assert (Hc' : cond st' = false).
      { apply loop_cond_false_iff; [assumption|]. right. rewrite Ht. assumption. }
      exists (Ret st'). destruct fuel; cbn [sampling_loop]; rewrite Hc'; reflexivity.
    + apply IH; [assumption|]. exists j. split; [lia|].
      replace (S k + j)%nat with (k + S j)%nat by lia. assumption.
Qed.

Lemma sampling_loop_result (env : nat -> iter_env) (fuel : nat) :
  forall (k : nat) (st : sampler) (r : outcome sampler),
    inv st -> loop fuel env k st = Some r ->
    match r with
    | Ret st' =>
        inv st' /\ cond st' = false
        /\ exists j, iterate j env k st = Ret st'
                     /\ forall j', (j' < j)%nat ->
                          exists st'', iterate j' env k st = Ret st''
                                       /\ inv st'' /\ cond st'' = true
    | Die s msg =>
        s = STATE_UNKNOWN /\ exists j, env_poll (env (k + j)%nat) = -1
    | OutOfBounds => False
    end.
Proof.
  induction fuel as [|fuel IH]; intros k st r Hinv Hr; cbn [sampling_loop] in Hr;
    destruct (cond st) eqn:Hc; try discriminate Hr.
  - injection Hr as <-. split; [assumption|]. split; [assumption|].
    exists 0%nat. split; [reflexivity|]. intros j' Hj'. lia.
  - destruct (loop_body_inv (env k) st Hinv) as [[Hp Hb]|(_ & st1 & Hb & Hinv1 & _)];
      rewrite Hb in Hr.
    + injection Hr as <-. split; [reflexivity|]. exists 0%nat.
      rewrite Nat.add_0_r. assumption.
    + specialize (IH (S k) st1 r Hinv1 Hr). destruct r as [st'|s msg|].
      * destruct IH as (Hinv' & Hc' & j & Hit & Hbefore).
        split; [assumption|]. split; [assumption|]. exists (S j). split.
        -- cbn [iterate_body]. rewrite Hb. exact Hit.
        -- intros [|j'] Hj'.
           ++ exists st. split; [reflexivity|]. split; assumption.
           ++ destruct (Hbefore j' ltac:(lia)) as (st'' & H1 & H2 & H3).
              exists st''. cbn [iterate_body]. rewrite Hb. cbn [bind].
              split; [assumption|]. split; assumption.
      * destruct IH as [-> [j Hp]]. split; [reflexivity|]. exists (S j).
        replace (k + S j)%nat with (S k + j)%nat by lia. assumption.
      * exact IH.
  - injection Hr as <-. split; [assumption|]. split; [assumption|].
    exists 0%nat. split; [reflexivity|]. intros j' Hj'. lia.
Qed.

(** C3 (amended). Provided the clock reading of some iteration [n] is more
    than [socket_timeout / 2] seconds after the start, the sampling loop
    ends within [n + 1] iterations.  It ends either because [poll] failed
    (the process dies with UNKNOWN), or by leaving the loop, and it leaves
    the loop exactly at the first test of the condition at which every peer
    has [AVG_NUM] responses or the last clock reading is past the budget:
    the state it leaves with satisfies this and none of the states tested
    before did. *)
Theorem sampling_loop_exit (env : nat -> iter_env) (n : nat) :
  Z.quot socket_timeout 2 < env_time (env n) - start_ts ->
  exists r,
    loop (S n) env 0 init = Some r
    /\ match r with
       | Ret st =>
           (Forall (fun s => num_responses s = AVG_NUM) (servers st)
            \/ Z.quot socket_timeout 2 < now_time st - start_ts)
           /\ exists j,
                iterate j env 0 init = Ret st
                /\ forall j', (j' < j)%nat ->
                     exists st', iterate j' env 0 init = Ret st'
                       /\ ~ (Forall (fun s => num_responses s = AVG_NUM) (servers st')
                             \/ Z.quot socket_timeout 2 < now_time st' - start_ts)
       | Die s msg => s = STATE_UNKNOWN /\ exists j, env_poll (env j) = -1
       | OutOfBounds => False
       end.
Proof.
  intros Hlate.
  destruct (sampling_loop_terminates env (S n) 0 init inv_init) as [r Hr].
  { exists n. split; [lia | assumption]. }
  exists r. split; [assumption|].
  pose proof (sampling_loop_result env (S n) 0 init r inv_init Hr) as H.
  destruct r as [st|s msg|]; [| exact H | exact H].
  destruct H as (Hinv & Hc & j & Hit & Hbefore).
  split; [apply (loop_cond_false_iff st Hinv); assumption|].
  exists j. split; [assumption|]. intros j' Hj'.
  destruct (Hbefore j' Hj') as (st' & H1 & H2 & H3).
  exists st'. split; [assumption|]. apply (loop_cond_true_iff st' H2). assumption.
Qed.

Lemma sampling_loop_inv (env : nat -> iter_env) (fuel : nat) (st : sampler) :
  loop fuel env 0 init = Some (Ret st) -> inv st.
Proof.
  intros Hr. apply (sampling_loop_result env fuel 0 init (Ret st) inv_init Hr).
Qed.

(** C7 (amended). When the loop is left and no peer has a recorded
    response, [offset_request] calls [die] with STATE_CRITICAL (not
    UNKNOWN) and the message "NTP CRITICAL: No response from NTP server";
    when some peer has at least one recorded response it does not, whether
    or not the other peers are complete: it returns an average and a
    status. *)
Theorem no_response_is_critical (env : nat -> iter_env) (fuel : nat)
    (status : mp_state_enum) (st : sampler) :
  loop fuel env 0 init = Some (Ret st) ->
  (Forall (fun s => num_responses s = 0) (servers st) ->
   offset_result num_hosts st status
   = Die STATE_CRITICAL "NTP CRITICAL: No response from NTP server")
  /\ (Exists (fun s => 0 < num_responses s) (servers st) ->
      exists avg_offset status',
        offset_result num_hosts st status = Ret (avg_offset, status')).
Proof.
  intros Hr. pose proof (sampling_loop_inv env fuel st Hr) as Hinv.
  pose proof (si_one_read _ _ _ Hinv) as Hone. unfold offset_result. split.
  - intros Hall. destruct (one_read st); [|reflexivity].
    destruct (proj1 Hone eq_refl) as (i & s & Hs & Hpos).
    pose proof (Forall_lookup_1 _ _ _ _ Hall Hs) as H0. cbn in H0. lia.
  - intros Hex. apply Exists_exists in Hex as (s & Hin & Hpos).
    apply list_elem_of_lookup in Hin as [i Hs].
    rewrite (proj2 Hone) by (exists i, s; split; assumption). cbn [negb].
    destruct (_ <? 0); eexists; eexists; reflexivity.
Qed.

Lemma srv_lookup (l : list ntp_server_results) (b : Z) :
  0 <= b < Z.of_nat (length l) -> l !! Z.to_nat b = Some (srv l b).
Proof.
  intros Hb. unfold srv.
  destruct (nth_lookup_or_length l (Z.to_nat b) zero_results) as [H|H]; [exact H | lia].
Qed.

Lemma Z2double_count_positive (n : Z) :
  0 < n <= AVG_NUM -> PrimFloat.ltb 0 (Z2double n) = true.
Proof.
  unfold AVG_NUM. intros Hn.
  assert (n = 1 \/ n = 2 \/ n = 3 \/ n = 4) as [->|[->|[->| ->]]] by lia; reflexivity.
Qed.

Lemma best_offset_server_responded (st : sampler) :
  inv st ->
  let b := best_offset_server (servers st) (Z.of_nat num_hosts) in
  b <> -1 ->
  0 <= b < Z.of_nat num_hosts
  /\ 0 < num_responses (srv (servers st) b) <= AVG_NUM.
Proof.
  intros Hinv b Hb. subst b. rewrite <- (si_servers _ _ _ Hinv) in *.
  destruct (proj2 (best_offset_server_select (servers st)) Hb) as [Hrange Hrej].
  pose proof (srv_lookup _ _ Hrange) as Hs.
  pose proof (si_peers _ _ _ Hinv _ _ Hs) as [P1 P2 P3 P4 P5].
  split; [assumption|]. split; [|assumption].
  apply P5. unfold rejected in Hrej. apply orb_false_iff in Hrej. lia.
Qed.

(** C9. The peer records start with stratum 0 and no response, in every
    state the loop is left with a peer of non-zero stratum has at least one
    recorded response, and so the index [best_offset_server] returns, when
    it is not -1, is that of a peer with between 1 and [AVG_NUM] responses:
    the final average divides by a positive count. *)
Theorem selected_peer_has_responses (env : nat -> iter_env) (fuel : nat)
    (st : sampler) :
  loop fuel env 0 init = Some (Ret st) ->
  let b := best_offset_server (servers st) (Z.of_nat num_hosts) in
  Forall (fun s => stratum s = 0 /\ num_responses s = 0) (servers init)
  /\ Forall (fun s => stratum s <> 0 -> 0 < num_responses s) (servers st)
  /\ (b <> -1 ->
      0 <= b < Z.of_nat num_hosts
      /\ 0 < num_responses (srv (servers st) b) <= AVG_NUM
      /\ PrimFloat.ltb 0 (Z2double (num_responses (srv (servers st) b))) = true).
Proof.
  intros Hr b. pose proof (sampling_loop_inv env fuel st Hr) as Hinv.
  split; [|split].
  - apply Forall_lookup. intros i s Hs. cbn in Hs.
    apply lookup_replicate_1 in Hs as [-> _]. split; reflexivity.
  - apply Forall_lookup. intros i s Hs.
    apply (pi_stratum _ _ _ _ (si_peers _ _ _ Hinv i s Hs)).
  - intros Hb. destruct (best_offset_server_responded st Hinv Hb) as [Hrange Hnum].
    split; [assumption|]. split; [assumption|].
    apply Z2double_count_positive. assumption.
Qed.

Lemma sum_offsets_fold (s : ntp_server_results) (n : nat) :
  forall (i : Z) (avg_offset : float),
    0 <= i -> (Z.to_nat i + n <= length (offset s))%nat ->
    sum_offsets s n i avg_offset
    = fold_left PrimFloat.add (take n (drop (Z.to_nat i) (offset s))) avg_offset.
Proof.
  induction n as [|n IH]; intros i acc Hi Hn; cbn [sum_offsets].
  - reflexivity.
  - destruct (lookup_lt_is_Some_2 (offset s) (Z.to_nat i) ltac:(lia)) as [x Hx].
    rewrite (drop_S _ _ _ Hx). cbn [take fold_left].
    rewrite (nth_lookup_Some _ _ _ _ Hx), IH by lia.
    replace (Z.to_nat (i + 1)) with (S (Z.to_nat i)) by lia. reflexivity.
Qed.

(** C2. When the loop is left and a peer is selected, the offset
    [offset_request] returns is the arithmetic mean (sum from left to right
    starting at 0, divided by the count, all in double arithmetic) of that
    peer's samples, one for each read from the peer; the sample of a read
    is [((peer_transmit - client_receive) + (peer_receive -
    client_transmit)) / 2] on the decoded timestamps of the buffer and the
    local receive time, plus [time_offset]; the averaging adds no further
    correction, and [*status] is left as it was. *)
Theorem reported_offset_is_mean (env : nat -> iter_env) (fuel : nat)
    (status : mp_state_enum) (st : sampler) :
  loop fuel env 0 init = Some (Ret st) ->
  let b := best_offset_server (servers st) (Z.of_nat num_hosts) in
  b <> -1 ->
  let reads := receptions (Z.to_nat b) (io_log st) in
  let sample (r : ntp_message * timeval) :=
    let client_transmit := NTP64asDOUBLE (field64 (fst r) off_origts) in
    let peer_receive := NTP64asDOUBLE (field64 (fst r) off_rxts) in
    let peer_transmit := NTP64asDOUBLE (field64 (fst r) off_txts) in
    let client_receive := TVasDOUBLE (snd r) in
    (((peer_transmit - client_receive) + (peer_receive - client_transmit)) / 2
     + Z2double time_offset)%float in
  reads <> []
  /\ Z.of_nat (length reads) = num_responses (srv (servers st) b)
  /\ take (length reads) (offset (srv (servers st) b)) = map sample reads
  /\ offset_result num_hosts st status = Ret (fmean (map sample reads), status).
Proof.
  intros Hr b Hb reads sample.
  pose proof (sampling_loop_inv env fuel st Hr) as Hinv.
  destruct (best_offset_server_responded st Hinv Hb) as (Hrange & Hnum).
  fold b in Hrange, Hnum.
  pose proof Hrange as Hrange'. rewrite <- (si_servers _ _ _ Hinv) in Hrange'.
  pose proof (srv_lookup _ _ Hrange') as Hs.
  pose proof (si_peers _ _ _ Hinv _ _ Hs) as [P1 P2 P3 P4 P5].
  fold reads in P1, P4. change (sample_of time_offset) with sample in P4.
  assert (Hlen : Z.to_nat (num_responses (srv (servers st) b)) = length reads) by lia.
  rewrite Hlen in P4.
  split; [intros H0; rewrite H0 in P1; cbn in P1; lia|].
  split; [lia|]. split; [exact P4|].
  unfold offset_result.
  rewrite (proj2 (si_one_read _ _ _ Hinv))
    by (eexists _, _; split; [exact Hs | lia]).
  cbn [negb]. fold b. replace (b <? 0) with false by (symmetry; apply Z.ltb_ge; lia).
  unfold fmean. rewrite length_map, <- P4, P1.
  rewrite sum_offsets_fold by (rewrite ?P3; unfold AVG_NUM in *; lia).
  rewrite Nat2Z.id. reflexivity.
Qed.

End Sampling.

(** ** The example sessions *)

(** The example of the selection: the second of two peers of equal stratum
    and dispersion has the lower delay and wins; the third has stratum 0. *)
Example best_offset_server_example :
  best_offset_server
    [ mk_results 0 4 1 5 1 (replicate 4 0%float) 0;
      mk_results 0 4 1 3 1 (replicate 4 0%float) 0;
      mk_results 0 4 0 0 0 (replicate 4 0%float) 0 ] 3 = 1.
Proof.
  reflexivity.
Qed.

Lemma responsive_session :
  sampling_loop 1 10 0 100 10 responsive_env 0 (init_sampler 1 100 no_req)
  = Some (Ret (final_state responsive_env)).
Proof.
  vm_compute. reflexivity.
Defined.

Lemma silent_session :
  sampling_loop 1 10 0 100 10 silent_env 0 (init_sampler 1 100 no_req)
  = Some (Ret (final_state silent_env)).
Proof.
  vm_compute. reflexivity.
Defined.

Lemma responsive_selected :
  best_offset_server (servers (final_state responsive_env)) (Z.of_nat 1) <> -1.
Proof.
  vm_compute. discriminate.
Defined.

Lemma reported_offset_is_mean_witness :
  sampling_loop 1 10 0 100 10 responsive_env 0 (init_sampler 1 100 no_req)
  = Some (Ret (final_state responsive_env))
  /\ best_offset_server (servers (final_state responsive_env)) 1 = 0
  /\ length (receptions 0 (io_log (final_state responsive_env))) = 4%nat
  /\ offset_result 1 (final_state responsive_env) STATE_OK
     = Ret (fmean (map (sample_of 0) (receptions 0 (io_log (final_state responsive_env)))),
            STATE_OK)
  /\ offset_request 1 10 0 100 no_req 10 responsive_env STATE_OK
     = Some (Ret (0.25000000254657095%float, STATE_OK)).
Proof.
  pose proof (reported_offset_is_mean 1 10 0 100 no_req responsive_env 10 STATE_OK
                (final_state responsive_env) responsive_session responsive_selected)
    as (_ & _ & _ & H).
  split; [exact responsive_session|]. split; [reflexivity|].
  split; [reflexivity|]. split; [exact H|]. vm_compute. reflexivity.
Defined.

Lemma sampling_loop_exit_witness :
  Z.quot 10 2 < env_time (silent_env 6) - 100
  /\ exists r,
       sampling_loop 1 10 0 100 7 silent_env 0 (init_sampler 1 100 no_req) = Some r.
Proof.
  split; [reflexivity|].
  destruct (sampling_loop_exit 1 10 0 100 no_req silent_env 6 eq_refl) as [r [Hr _]].
  exists r. exact Hr.
Defined.

(** C3, as stated, fails: a failed [poll] stops the loop at once, while no
    peer has its responses and no time has passed. *)
Lemma poll_failure_stops_the_loop :
  sampling_loop 1 10 0 100 1 poll_failure_env 0 (init_sampler 1 100 no_req)
  = Some (Die STATE_UNKNOWN "communication errors")
  /\ map num_responses (servers (init_sampler 1 100 no_req)) = [0]
  /\ now_time (init_sampler 1 100 no_req) - 100 = 0
  /\ ~ session_over 10 100 (init_sampler 1 100 no_req).
Proof.
  split; [reflexivity|]. split; [reflexivity|]. split; [reflexivity|].
  intros [H|H].
  - apply Forall_cons in H as [H _]. discriminate H.
  - discriminate H.
Qed.

Lemma recv_one_ignores_length_witness :
  let st := send_loop 1 0 (env_send_tv short_datagram_env)
              (set_now_time 101 (init_sampler 1 100 no_req)) in
  servers st !! 0%nat = Some (mk_results 101 0 0 0 0 (replicate 4 0%float) 0)
  /\ req st !! 0%nat = Some (setup_request (mk_timeval 101 0))
  /\ env_read short_datagram_env 0 = Some [ x24 ]
  /\ exists st' s',
       recv_one 0 short_datagram_env 0 st = Ret st'
       /\ servers st' !! 0%nat = Some s'
       /\ num_responses s' = 1
       /\ flags s' = 0x24.
Proof.
  intros st.
  assert (H1 : servers st !! 0%nat = Some (mk_results 101 0 0 0 0 (replicate 4 0%float) 0))
    by reflexivity.
  assert (H2 : req st !! 0%nat = Some (setup_request (mk_timeval 101 0))) by reflexivity.
  destruct (recv_one_ignores_length 0 short_datagram_env 0 _ _ st H1 H2
              (conj (Z.le_refl 0) eq_refl) eq_refl)
    as (_ & _ & st' & s' & Hr & Hs & Hn & _ & _ & _ & _ & Hf & _).
  split; [exact H1|]. split; [exact H2|]. split; [reflexivity|].
  exists st', s'. split; [exact Hr|]. split; [exact Hs|]. split; [exact Hn | exact Hf].
Defined.

(** C6, as stated, fails: after a datagram of one byte the peer has one
    response more, a sample, and other flags and delay than before. *)
Lemma short_datagram_is_recorded :
  (length [ x24 ] < 48)%nat
  /\ map num_responses (servers (init_sampler 1 100 no_req)) = [0]
  /\ exists st',
       loop_body 1 0 short_datagram_env (init_sampler 1 100 no_req) = Ret st'
       /\ servers st'
          = [ mk_results 0 1 0 1 1
                [ (-0.24999999749999802)%float; 0%float; 0%float; 0%float ] 0x24 ]
       /\ one_read st' = true.
Proof.
  split; [cbn; lia|]. split; [reflexivity|].
  eexists. split; [vm_compute; reflexivity|]. split; reflexivity.
Qed.

Lemma no_response_is_critical_witness :
  sampling_loop 1 10 0 100 10 silent_env 0 (init_sampler 1 100 no_req)
  = Some (Ret (final_state silent_env))
  /\ Forall (fun s => num_responses s = 0) (servers (final_state silent_env))
  /\ offset_result 1 (final_state silent_env) STATE_OK
     = Die STATE_CRITICAL "NTP CRITICAL: No response from NTP server".
Proof.
  assert (H0 : Forall (fun s => num_responses s = 0) (servers (final_state silent_env))).
  { apply Forall_cons. split; [reflexivity | apply Forall_nil; exact I]. }
  split; [exact silent_session|]. split; [exact H0|].
  exact (proj1 (no_response_is_critical 1 10 0 100 no_req silent_env 10 STATE_OK
                  (final_state silent_env) silent_session) H0).
Defined.

(** C7, as stated, fails: a session without any response ends with the
    state CRITICAL, which is not UNKNOWN. *)
Lemma no_response_is_not_unknown :
  offset_request 1 10 0 100 no_req 10 silent_env STATE_OK
  = Some (Die STATE_CRITICAL "NTP CRITICAL: No response from NTP server")
  /\ map num_responses (servers (final_state silent_env)) = [0]
  /\ STATE_CRITICAL <> STATE_UNKNOWN.
Proof.
  split; [vm_compute; reflexivity|]. split; [reflexivity | discriminate].
Qed.

Lemma one_request_per_iteration_witness :
  length (servers (init_sampler 1 100 no_req)) = 1%nat
  /\ forall st',
       loop_body 1 0 (responsive_env 0) (init_sampler 1 100 no_req) = Ret st' ->
       sends (io_log st') = [0%nat].
Proof.
  split; [reflexivity|].
  exact (proj1 (one_request_per_iteration 1 0 (responsive_env 0)
                  (init_sampler 1 100 no_req) eq_refl)).
Defined.

Lemma selected_peer_has_responses_witness :
  sampling_loop 1 10 0 100 10 responsive_env 0 (init_sampler 1 100 no_req)
  = Some (Ret (final_state responsive_env))
  /\ 0 < num_responses
           (srv (servers (final_state responsive_env))
              (best_offset_server (servers (final_state responsive_env)) (Z.of_nat 1)))
       <= AVG_NUM.
Proof.
  split; [exact responsive_session|].
  destruct (selected_peer_has_responses 1 10 0 100 no_req responsive_env 10
              (final_state responsive_env) responsive_session) as (_ & _ & H).
  exact (proj1 (proj2 (H responsive_selected))).
Defined.

(** ** The codec on time values *)

Lemma Z2double_of_uint63 (i : Uint63.int) :
  Z2double (Uint63.to_Z i) = PrimFloat.of_uint63 i.
Proof.
  unfold Z2double. rewrite <- of_uint63_spec. apply SF2Prim_Prim2SF.
Qed.

Lemma digits2_pos_size (p : positive) : digits2_pos p = Pos.size p.
Proof.
  induction p as [p IH|p IH|]; cbn; [rewrite IH | rewrite IH |]; reflexivity.
Qed.

Lemma digits2_pos_53 (p : positive) :
  4503599627370496 <= Z.pos p < 9007199254740992 -> digits2_pos p = 53%positive.
Proof.
  intros Hp. rewrite digits2_pos_size.
  pose proof (Pos.size_gt p) as Hgt. pose proof (Pos.size_le p) as Hle.
  assert (H1 : 2 ^ 52 < 2 ^ Z.pos (Pos.size p)).
  { rewrite <- Pos2Z.inj_pow. change (2 ^ 52) with 4503599627370496. lia. }
  assert (H2 : 2 ^ Z.pos (Pos.size p) < 2 ^ 54).
  { rewrite <- Pos2Z.inj_pow. change (2 ^ 54) with 18014398509481984. lia. }
  apply Z.pow_lt_mono_r_iff in H1; [|lia|lia].
  apply Z.pow_lt_mono_r_iff in H2; [|lia|lia]. lia.
Qed.

(** [trunc_fast] agrees with the two conversions of the model. *)
Lemma trunc_fast_spec (f : float) (k : Uint63.int) :
  trunc_fast f = Some k ->
  double2u64 f = Uint63.to_Z k /\ double2int f = Uint63.to_Z k.
Proof.
  unfold trunc_fast, double2u64, double2int, Prim2SF, Z.frexp.
  destruct (PrimFloat.is_nan f); [discriminate|].
  destruct (PrimFloat.is_zero f); [discriminate|].
  destruct (PrimFloat.is_infinity f); [discriminate|].
  destruct (PrimFloat.get_sign f); [discriminate|]. cbn [orb].
  destruct (PrimFloat.frshiftexp f) as [r se].
  destruct (Uint63.leb int_2p52 (normfr_mantissa r)) eqn:E1; [|discriminate].
  destruct (Uint63.ltb (normfr_mantissa r) int_2p53) eqn:E2; [|discriminate].
  destruct (Uint63.leb int_2101 se) eqn:E3; [|discriminate].
  destruct (Uint63.leb se int_2154) eqn:E4; [|discriminate].
  cbn [andb]. intros [= <-].
  apply Uint63.leb_spec in E1, E3, E4. apply Uint63.ltb_spec in E2.
  change (Uint63.to_Z int_2p52) with 4503599627370496 in E1.
  change (Uint63.to_Z int_2p53) with 9007199254740992 in E2.
  change (Uint63.to_Z int_2101) with 2101 in E3.
  change (Uint63.to_Z int_2154) with 2154 in E4.
  rewrite Uint63.lsr_spec, Uint63.sub_spec.
  change (Uint63.to_Z int_2154) with 2154.
  set (m := Uint63.to_Z (normfr_mantissa r)) in *.
  set (s := Uint63.to_Z se) in *.
  rewrite (Z.mod_small (2154 - s)) by (change Uint63.wB with 9223372036854775808; lia).
  destruct m as [|p|p] eqn:Em; try lia.
  unfold shr_fexp, Zdigits2, fexp, SpecFloat.emin, prec, emax.
  change FloatOps.shift with 2101.
  rewrite (digits2_pos_53 p) by lia.
  replace (Z.max (53 + (s - 2101 - 53) - 53) (3 - 1024 - 53) - (s - 2101 - 53)) with 0 by lia.
  cbn [shr shr_record_of_loc shr_m].
  assert (Hdiv : 0 <= Z.pos p / 2 ^ (2154 - s) < 18446744073709551616).
  { split; [apply Z.div_pos; lia|].
    apply Z.div_lt_upper_bound; [lia|].
    assert (1 <= 2 ^ (2154 - s)) by (apply (Z.pow_le_mono_r 2 0); lia). nia. }
  assert (Hval : (if 0 <=? s - 2101 - 53 then Z.pos p * 2 ^ (s - 2101 - 53)
                  else Z.pos p / 2 ^ (- (s - 2101 - 53)))
                 = Z.pos p / 2 ^ (2154 - s)).
  { destruct (0 <=? s - 2101 - 53) eqn:E.
    - apply Z.leb_le in E. replace s with 2154 by lia. cbn. rewrite Z.div_1_r. lia.
    - f_equal. f_equal. lia. }
  rewrite Hval. split; [|reflexivity].
  change (2 ^ 64) with 18446744073709551616. apply Z.mod_small. assumption.
Qed.

Lemma check_range_sound (f : Z -> bool) (n : nat) :
  forall u, check_range f n u = true ->
            forall k, u <= k < u + Z.of_nat n -> f k = true.
Proof.
  induction n as [|n IH]; intros u Hc k Hk; cbn [check_range] in Hc.
  - lia.
  - apply andb_true_iff in Hc as [Hu Hc].
    destruct (decide (k = u)) as [->|Hne]; [assumption|].
    apply (IH (u + 1) Hc). lia.
Qed.

Lemma all_usec_ok_fast : check_range usec_ok_fast (Z.to_nat 1000000) 0 = true.
Proof.
  vm_cast_no_check (eq_refl true).
Qed.

Lemma usec_conversions (u : Z) :
  0 <= u < 1000000 ->
  0 <= frac_of_usec u < 4294967296
  /\ usec_of_frac (frac_of_usec u) = u
  /\ (u = 0 \/ 0 < frac_of_usec u)
  /\ PrimFloat.ltb
       (abs (ntp64_frac (frac_of_usec u) - 0.000001 * Z2double u)) 0.00000001
     = true.
Proof.
  intros Hu.
  pose proof (check_range_sound _ _ _ all_usec_ok_fast u ltac:(lia)) as Hok.
  unfold usec_ok_fast in Hok.
  assert (Hui : Uint63.to_Z (Uint63.of_Z u) = u).
  { rewrite Uint63.of_Z_spec. apply Z.mod_small.
    change Uint63.wB with 9223372036854775808. lia. }
  set (ui := Uint63.of_Z u) in *.
  assert (Hd : Z2double u = PrimFloat.of_uint63 ui)
    by (rewrite <- Hui; apply Z2double_of_uint63).
  destruct (trunc_fast (4294.967296 * PrimFloat.of_uint63 ui + 0.5)) as [lo|] eqn:E1;
    [|discriminate Hok].
  apply trunc_fast_spec in E1 as [E1 _].
  assert (Hlo : frac_of_usec u = Uint63.to_Z lo)
    by (unfold frac_of_usec; rewrite Hd; exact E1).
  apply andb_true_iff in Hok as [Hok H4]. apply andb_true_iff in Hok as [Hok H3].
  apply andb_true_iff in Hok as [H1 H2].
  destruct (trunc_fast (0.5 + PrimFloat.of_uint63 lo / 4294.967296)) as [u'|] eqn:E2;
    [|discriminate H2].
  apply trunc_fast_spec in E2 as [_ E2].
  apply Uint63.eqb_spec in H2. subst u'.
  apply Uint63.ltb_spec in H1. change (Uint63.to_Z int_2p32) with 4294967296 in H1.
  pose proof (Uint63.to_Z_bounded lo) as Hb.
  rewrite Hlo. split; [lia|]. split; [|split].
  - unfold usec_of_frac. rewrite Z2double_of_uint63, E2. exact Hui.
  - apply orb_true_iff in H3 as [H3|H3].
    + apply Uint63.eqb_spec in H3. left. rewrite <- Hui, H3. reflexivity.
    + apply Uint63.ltb_spec in H3. right. exact H3.
  - unfold ntp64_frac. rewrite Z2double_of_uint63, Hd. exact H4.
Qed.

Lemma be32_at_bytes_4 (a b : Z) :
  be32_at (be32_bytes a ++ be32_bytes b) 4 = b mod 4294967296.
Proof.
  unfold be32_at, be16_at, byte_at, be32_bytes. cbn [app nth Nat.add].
  rewrite !byte_val_of_Z.
  Z.to_euclidean_division_equations. lia.
Qed.

Lemma be32_at_nonneg (n : list byte) (o : nat) : 0 <= be32_at n o.
Proof.
  unfold be32_at, be16_at, byte_at.
  repeat match goal with
         | |- context [byte_val ?b] =>
             pose proof (byte_val_range b); generalize dependent (byte_val b); intros
         end.
  lia.
Qed.

Lemma TVtoNTP64_length (t : timeval) : length (TVtoNTP64 t) = 8%nat.
Proof.
  unfold TVtoNTP64. destruct (_ && _); reflexivity.
Qed.

(** The fields of an encoded time value that is not the zero time and lies
    in the era of the 32-bit seconds. *)
Lemma TVtoNTP64_fields (sec usec : Z) :
  - 2208988800 < sec < 2085978496 -> 0 <= usec < 1000000 ->
  (usec =? 0) && (sec =? 0) = false ->
  be32_at (TVtoNTP64 (mk_timeval sec usec)) 0 = sec + 2208988800
  /\ be32_at (TVtoNTP64 (mk_timeval sec usec)) 4 = frac_of_usec usec
  /\ u64_is_zero (TVtoNTP64 (mk_timeval sec usec)) = false.
Proof.
  intros Hsec Husec Hnz.
  destruct (usec_conversions usec Husec) as (Hlo & _ & _ & _).
  assert (H0 : be32_at (TVtoNTP64 (mk_timeval sec usec)) 0 = sec + 2208988800).
  { unfold TVtoNTP64. cbn [tv_sec tv_usec]. rewrite Hnz, be32_at_bytes.
    change EPOCHDIFF with 2208988800. change (2 ^ ULONG_BITS) with 18446744073709551616.
    rewrite (Z.mod_small (sec + 2208988800)) by lia. apply Z.mod_small. lia. }
  assert (H4 : be32_at (TVtoNTP64 (mk_timeval sec usec)) 4 = frac_of_usec usec).
  { unfold TVtoNTP64. cbn [tv_sec tv_usec]. rewrite Hnz, be32_at_bytes_4.
    apply Z.mod_small. exact Hlo. }
  split; [exact H0|]. split; [exact H4|].
  destruct (u64_is_zero _) eqn:E; [|reflexivity].
  apply (u64_is_zero_wire _ (TVtoNTP64_length _)) in E.
  unfold u64_wire in E. rewrite H0, H4 in E. lia.
Qed.

(** X3. Round trip of the two timestamp macros: for every time value of
    the NTP era (seconds from 1900-01-01 up to the rollover of the 32-bit
    seconds in 2036, that is -2208988800 < tv_sec < 2085978496) with
    microseconds in 0..999999, [NTP64toTV] gives back exactly the time value
    [TVtoNTP64] encoded; and only the zero time is encoded as the unset
    timestamp 0. *)
Theorem NTP64toTV_TVtoNTP64 (t : timeval) :
  - 2208988800 < tv_sec t < 2085978496 -> 0 <= tv_usec t < 1000000 ->
  NTP64toTV (TVtoNTP64 t) = t
  /\ (u64_wire (TVtoNTP64 t) = 0 <-> t = mk_timeval 0 0).
Proof.
  destruct t as [sec usec]. cbn [tv_sec tv_usec]. intros Hsec Husec.
  destruct ((usec =? 0) && (sec =? 0)) eqn:Hz.
  - apply andb_true_iff in Hz as [H1 H2]. apply Z.eqb_eq in H1, H2. subst.
    split; [reflexivity|]. split; reflexivity.
  - destruct (TVtoNTP64_fields sec usec Hsec Husec Hz) as (H0 & H4 & Hnz).
    destruct (usec_conversions usec Husec) as (Hlo & Hback & _ & _).
    split.
    + unfold NTP64toTV. rewrite Hnz, H0, H4. fold (usec_of_frac (frac_of_usec usec)).
      rewrite Hback. f_equal.
      unfold ntp64_whole, long_of_ulong.
      change EPOCHDIFF with 2208988800. change ULONG_BITS with 64.
      replace (sec + 2208988800 - 2208988800) with sec by lia.
      change (2 ^ (64 - 1)) with 9223372036854775808.
      change (2 ^ 64) with 18446744073709551616.
      destruct (Z.ltb_spec (sec mod 18446744073709551616) 9223372036854775808);
        Z.to_euclidean_division_equations; lia.
    + split.
      * intros Hw. apply (u64_is_zero_wire _ (TVtoNTP64_length _)) in Hw. congruence.
      * intros [= -> ->]. discriminate Hz.
Qed.

Lemma NTP64toTV_TVtoNTP64_witness :
  NTP64toTV (TVtoNTP64 (mk_timeval 1000 500000)) = mk_timeval 1000 500000
  /\ NTP64toTV (TVtoNTP64 (mk_timeval (-1) 999999)) = mk_timeval (-1) 999999.
Proof.
  split.
  - apply (NTP64toTV_TVtoNTP64 (mk_timeval 1000 500000)); cbn; lia.
  - apply (NTP64toTV_TVtoNTP64 (mk_timeval (-1) 999999)); cbn; lia.
Defined.

(** X4. Decoding an encoded time value of the era since 1970 (not the zero
    time): [NTP64asDOUBLE] gives the seconds exactly plus a fraction that
    differs from [0.000001 * tv_usec], the fraction of [TVasDOUBLE], by
    less than 10 nanoseconds. *)
Theorem NTP64asDOUBLE_TVtoNTP64 (t : timeval) :
  0 <= tv_sec t < 2085978496 -> 0 <= tv_usec t < 1000000 ->
  (tv_usec t =? 0) && (tv_sec t =? 0) = false ->
  NTP64asDOUBLE (TVtoNTP64 t)
  = (Z2double (tv_sec t) + ntp64_frac (frac_of_usec (tv_usec t)))%float
  /\ PrimFloat.ltb
       (abs (ntp64_frac (frac_of_usec (tv_usec t)) - 0.000001 * Z2double (tv_usec t)))
       0.00000001
     = true.
Proof.
  destruct t as [sec usec]. cbn [tv_sec tv_usec]. intros Hsec Husec Hz.
  destruct (TVtoNTP64_fields sec usec ltac:(lia) Husec Hz) as (H0 & H4 & Hnz).
  destruct (usec_conversions usec Husec) as (_ & _ & _ & Hacc).
  split; [|exact Hacc].
  unfold NTP64asDOUBLE. rewrite Hnz, H0, H4. do 2 f_equal.
  unfold ntp64_whole. change EPOCHDIFF with 2208988800.
  change (2 ^ ULONG_BITS) with 18446744073709551616.
  replace (sec + 2208988800 - 2208988800) with sec by lia.
  apply Z.mod_small. lia.
Qed.

Lemma NTP64asDOUBLE_TVtoNTP64_witness :
  NTP64asDOUBLE (TVtoNTP64 (mk_timeval 1000 500000))
  = (Z2double 1000 + ntp64_frac (frac_of_usec 500000))%float.
Proof.
  apply (NTP64asDOUBLE_TVtoNTP64 (mk_timeval 1000 500000)); cbn; first [lia | reflexivity].
Defined.

(** ** The request and the flag byte *)

(** X1. Whatever the time, [setup_request] builds a message of 48 bytes
    with leap indicator ALARM, version 4 and mode CLIENT, stratum 0,
    poll 4, precision 0xfa, delay and dispersion 1.0, no reference id, no
    reference, originate or receive timestamp, and the encoded current time
    as transmit timestamp. *)
Theorem setup_request_layout (t : timeval) :
  let m := setup_request t in
  length m = sizeof_ntp_message
  /\ LI (msg_flags m) = LI_ALARM /\ VN (msg_flags m) = 4
  /\ MODE (msg_flags m) = MODE_CLIENT
  /\ msg_stratum m = 0
  /\ byte_at m off_poll = 4 /\ byte_at m off_precision = 0xfa
  /\ NTP32asDOUBLE m off_rtdelay = 1%float
  /\ NTP32asDOUBLE m off_rtdisp = 1%float
  /\ be32_at m off_refid = 0
  /\ NTP64asDOUBLE (field64 m off_refts) = 0%float
  /\ NTP64asDOUBLE (field64 m off_origts) = 0%float
  /\ NTP64asDOUBLE (field64 m off_rxts) = 0%float
  /\ field64 m off_txts = TVtoNTP64 t.
Proof.
  cbv zeta. unfold setup_request.
  split; [rewrite !length_app, TVtoNTP64_length; reflexivity|].
  repeat (split; [reflexivity|]).
  unfold field64, off_txts. cbn [app replicate skipn].
  apply take_app_length'. symmetry. apply TVtoNTP64_length.
Qed.

(** X2. The flag macros pack and unpack: setting leap indicator, version
    and mode in a zeroed byte gives a byte from which [LI], [VN] and [MODE]
    read the three values back, and every byte is made of its three
    fields; the leap indicator of a byte is ALARM exactly when the byte is
    at least 0xc0. *)
Theorem flags_pack_unpack (li vn mode x : Z) :
  0 <= li < 4 -> 0 <= vn < 8 -> 0 <= mode < 8 -> 0 <= x < 256 ->
  let packed := MODE_SET (VN_SET (LI_SET 0 li) vn) mode in
  packed = li * 64 + vn * 8 + mode
  /\ LI packed = li /\ VN packed = vn /\ MODE packed = mode
  /\ x = LI x * 64 + VN x * 8 + MODE x
  /\ 0 <= LI x < 4 /\ 0 <= VN x < 8 /\ 0 <= MODE x < 8
  /\ (LI x = LI_ALARM <-> 0xc0 <= x).
Proof.
  intros Hli Hvn Hmode Hx packed.
  assert (Hp : 0 <= li * 64 + vn * 8 + mode < 256) by lia.
  assert (Hfields : forall y, 0 <= y < 256 ->
            y = LI y * 64 + VN y * 8 + MODE y
            /\ 0 <= LI y < 4 /\ 0 <= VN y < 8 /\ 0 <= MODE y < 8
            /\ (LI y = LI_ALARM <-> 0xc0 <= y)).
  { intros y Hy.
    assert (Hc : check_range flag_fields_ok 256 0 = true) by (vm_compute; reflexivity).
    pose proof (check_range_sound _ _ _ Hc y ltac:(lia)) as Hok.
    unfold flag_fields_ok in Hok.
    repeat match goal with
           | H : _ && _ = true |- _ => apply andb_true_iff in H as [H ?]
           end.
    repeat match goal with
           | H : (_ =? _) = true |- _ => apply Z.eqb_eq in H
           | H : (_ <=? _) = true |- _ => apply Z.leb_le in H
           | H : (_ <? _) = true |- _ => apply Z.ltb_lt in H
           end.
    match goal with H : Bool.eqb _ _ = true |- _ => apply Bool.eqb_prop in H; rename H into Hli' end.
    split; [assumption|]. split; [lia|]. split; [lia|]. split; [lia|].
    rewrite <- Z.eqb_eq, Hli', Z.leb_le. reflexivity. }
  assert (Hpacked : packed = li * 64 + vn * 8 + mode).
  { subst packed. unfold MODE_SET, VN_SET, LI_SET, LI_MASK, VN_MASK, MODE_MASK.
    assert (li = 0 \/ li = 1 \/ li = 2 \/ li = 3) as Hl by lia.
    assert (vn = 0 \/ vn = 1 \/ vn = 2 \/ vn = 3 \/ vn = 4 \/ vn = 5 \/ vn = 6 \/ vn = 7)
      as Hv by lia.
    assert (mode = 0 \/ mode = 1 \/ mode = 2 \/ mode = 3 \/ mode = 4 \/ mode = 5
            \/ mode = 6 \/ mode = 7) as Hm by lia.
    repeat match goal with H : _ \/ _ |- _ => destruct H as [->|H] end;
      subst; reflexivity. }
  split; [exact Hpacked|].
  destruct (Hfields packed ltac:(lia)) as (E & H1 & H2 & H3 & _).
  destruct (Hfields x Hx) as (Ex & G1 & G2 & G3 & G4).
  rewrite Hpacked in E at 1.
  split; [lia|]. split; [lia|]. split; [lia|].
  split; [exact Ex|]. split; [exact G1|]. split; [exact G2|]. split; [exact G3 | exact G4].
Qed.

Lemma flags_pack_unpack_witness :
  MODE_SET (VN_SET (LI_SET 0 LI_ALARM) 4) MODE_CLIENT = 0xe3
  /\ LI 0xe3 = LI_ALARM /\ VN 0x24 = 4 /\ MODE 0x24 = 4.
Proof.
  destruct (flags_pack_unpack 3 4 3 0x24) as (H1 & H2 & _ & _ & _ & _ & _ & _ & _);
    try (cbn; lia).
  split; [reflexivity|]. split; [reflexivity|]. split; reflexivity.
Defined.

(** ** More on the selection *)

Lemma best_offset_server_at_most (slist : list ntp_server_results) :
  -1 <= best_offset_server slist (Z.of_nat (length slist)) < Z.of_nat (length slist).
Proof.
  rewrite best_offset_server_loop.
  pose proof (best_offset_loop_range slist (length slist) 0 (-1) ltac:(lia)). lia.
Qed.

Lemma best_offset_server_later (slist : list ntp_server_results) :
  forall c,
    best_offset_server slist (Z.of_nat (length slist)) <> -1 ->
    best_offset_server slist (Z.of_nat (length slist)) < c < Z.of_nat (length slist) ->
    rejected (srv slist c) = true
    \/ replaces (srv slist c)
         (srv slist (best_offset_server slist (Z.of_nat (length slist)))) = false.
Proof.
  induction slist as [|p slist IH] using rev_ind; intros c Hb Hc.
  - change (best_offset_server [] (Z.of_nat (length []))) with (-1) in Hc.
    cbn in Hc. lia.
  - rewrite length_app in *. cbn [length] in *.
    replace (Z.of_nat (length slist + 1)) with (Z.of_nat (length slist) + 1) in * by lia.
    rewrite best_offset_server_snoc in *. cbv zeta in *.
    pose proof (best_offset_server_at_most slist) as Hr.
    set (b := best_offset_server slist (Z.of_nat (length slist))) in *.
    assert (Hold : b <> -1 -> b < c < Z.of_nat (length slist) + 1 ->
              (rejected p = true \/ replaces p (srv slist b) = false) ->
              rejected (srv (slist ++ [p]) c) = true
              \/ replaces (srv (slist ++ [p]) c) (srv (slist ++ [p]) b) = false).
    { intros Hb' Hc' Hp. rewrite (srv_app_l slist [p] b) by lia.
      destruct (decide (c = Z.of_nat (length slist))) as [->|Hne].
      - rewrite srv_app_last. exact Hp.
      - rewrite srv_app_l by lia. apply IH; [assumption | lia]. }
    destruct (rejected p) eqn:Hp; [apply Hold; auto|].
    destruct (b =? -1) eqn:Eb; [lia|]. apply Z.eqb_neq in Eb.
    destruct (replaces p (srv slist b)) eqn:Hrep; [lia|].
    apply Hold; auto.
Qed.

(** X5. No peer after the selected one beats it: every later peer has
    stratum 0 or leap indicator ALARM, or fails one of the three
    comparisons (stratum <=, dispersion <=, delay <) with the selected
    peer. *)
Theorem best_offset_server_unbeaten (slist : list ntp_server_results) (c : Z) :
  let n := Z.of_nat (length slist) in
  let b := best_offset_server slist n in
  b <> -1 -> b < c < n ->
  stratum (srv slist c) = 0
  \/ LI (flags (srv slist c)) = LI_ALARM
  \/ (stratum (srv slist c) <=? stratum (srv slist b))
     && PrimFloat.leb (rtdisp (srv slist c)) (rtdisp (srv slist b))
     && PrimFloat.ltb (rtdelay (srv slist c)) (rtdelay (srv slist b)) = false.
Proof.
  cbv zeta. intros Hb Hc.
  destruct (best_offset_server_later slist c Hb Hc) as [H|H].
  - unfold rejected in H. apply orb_true_iff in H as [H|H]; apply Z.eqb_eq in H; auto.
  - right. right. exact H.
Qed.

Lemma best_offset_server_unbeaten_witness :
  let slist := [ mk_results 0 4 1 5 1 (replicate 4 0%float) 0;
                 mk_results 0 4 1 3 1 (replicate 4 0%float) 0;
                 mk_results 0 4 2 1 1 (replicate 4 0%float) 0 ] in
  best_offset_server slist 3 = 1
  /\ (stratum (srv slist 2) <=? stratum (srv slist 1)) = false.
Proof.
  intros slist. split; [reflexivity|].
  destruct (best_offset_server_unbeaten slist 2) as [H|[H|H]];
    [vm_compute; discriminate | vm_compute; split; reflexivity
    | discriminate H | discriminate H | reflexivity].
Defined.

(** The first peer of the list that is not rejected. *)
Lemma best_offset_server_first (slist : list ntp_server_results) :
  forall f,
    0 <= f < Z.of_nat (length slist) ->
    rejected (srv slist f) = false ->
    (forall j, 0 <= j < f -> rejected (srv slist j) = true) ->
    f <= best_offset_server slist (Z.of_nat (length slist))
    /\ stratum (srv slist (best_offset_server slist (Z.of_nat (length slist))))
       <= stratum (srv slist f)
    /\ ((forall c, 0 <= c < Z.of_nat (length slist) -> rejected (srv slist c) = false ->
                   rtdelay (srv slist c) = rtdelay (srv slist f)) ->
        best_offset_server slist (Z.of_nat (length slist)) = f).
Proof.
  induction slist as [|p slist IH] using rev_ind; intros f Hf Hacc Hfirst.
  - cbn in Hf. lia.
  - rewrite length_app in *. cbn [length] in *.
    replace (Z.of_nat (length slist + 1)) with (Z.of_nat (length slist) + 1) in * by lia.
    rewrite best_offset_server_snoc. cbv zeta.
    pose proof (best_offset_server_at_most slist) as Hr.
    pose proof (best_offset_server_select slist) as [Hnone Hsome]. cbv zeta in *.
    set (b := best_offset_server slist (Z.of_nat (length slist))) in *.
    destruct (decide (f = Z.of_nat (length slist))) as [->|Hne].
    + (* the appended peer is the first accepted one *)
      rewrite srv_app_last in *. rewrite Hacc.
      assert (Hb : b = -1).
      { apply Hnone. apply Forall_lookup. intros i x Hx.
        pose proof (lookup_lt_Some _ _ _ Hx) as Hi.
        specialize (Hfirst (Z.of_nat i) ltac:(lia)).
        rewrite srv_app_l in Hfirst by lia. unfold srv in Hfirst.
        rewrite Nat2Z.id in Hfirst. rewrite (nth_lookup_Some _ _ _ _ Hx) in Hfirst.
        exact Hfirst. }
      rewrite Hb. cbn. rewrite srv_app_last. split; [lia|]. split; [lia | reflexivity].
    + (* the first accepted peer is in the list *)
      rewrite (srv_app_l slist [p] f) in * by lia.
      destruct (IH f ltac:(lia) Hacc) as (H1 & H2 & H3).
      { intros j Hj. specialize (Hfirst j Hj). rewrite srv_app_l in Hfirst by lia.
        exact Hfirst. }
      assert (Hb : b <> -1) by lia.
      assert (Hsame : (forall c, 0 <= c < Z.of_nat (length slist) + 1 ->
                         rejected (srv (slist ++ [p]) c) = false ->
                         rtdelay (srv (slist ++ [p]) c) = rtdelay (srv slist f)) ->
                      b = f).
      { intros Hall. apply H3. intros c Hc Hcacc.
        specialize (Hall c ltac:(lia)). rewrite srv_app_l in Hall by lia. auto. }
      destruct (rejected p) eqn:Hp.
      * rewrite srv_app_l by lia. split; [lia|]. split; [lia | exact Hsame].
      * replace (b =? -1) with false by (symmetry; apply Z.eqb_neq; exact Hb).
        destruct (replaces p (srv slist b)) eqn:Hrep.
        -- rewrite srv_app_last. unfold replaces in Hrep.
           apply andb_true_iff in Hrep as [Hrep Hdelay].
           apply andb_true_iff in Hrep as [Hstr _]. apply Z.leb_le in Hstr.
           split; [lia|]. split; [lia|]. intros Hall. exfalso.
           pose proof (Hsame Hall) as Hbf.
           specialize (Hall (Z.of_nat (length slist)) ltac:(lia)).
           rewrite srv_app_last in Hall. specialize (Hall Hp).
           rewrite Hall, Hbf in Hdelay.
           rewrite ltb_spec in Hdelay. unfold SFltb in Hdelay.
           assert (Hrefl : forall s, SFcompare s s <> Some Lt).
           { intros [sg|sg| |sg m e]; cbn; try destruct sg; try discriminate.
             - rewrite Z.compare_refl, Pos.compare_cont_refl. discriminate.
             - rewrite Z.compare_refl, Pos.compare_cont_refl. discriminate. }
           destruct (SFcompare _ _) as [[]|] eqn:E; try discriminate Hdelay.
           apply Hrefl in E. exact E.
        -- rewrite srv_app_l by lia. split; [lia|]. split; [lia | exact Hsame].
Qed.

(** X6. The selection never goes back before the first peer that is not
    rejected, and the stratum of the selected peer is at most the stratum
    of that first peer. *)
Theorem best_offset_server_not_before_first (slist : list ntp_server_results)
    (f : Z) :
  let n := Z.of_nat (length slist) in
  let b := best_offset_server slist n in
  0 <= f < n ->
  stratum (srv slist f) <> 0 /\ LI (flags (srv slist f)) <> LI_ALARM ->
  (forall j, 0 <= j < f ->
     stratum (srv slist j) = 0 \/ LI (flags (srv slist j)) = LI_ALARM) ->
  f <= b < n /\ stratum (srv slist b) <= stratum (srv slist f).
Proof.
  cbv zeta. intros Hf [Hs Hl] Hfirst.
  pose proof (best_offset_server_at_most slist) as Hr.
  destruct (best_offset_server_first slist f Hf) as (H1 & H2 & _).
  - unfold rejected. apply orb_false_iff. split; apply Z.eqb_neq; assumption.
  - intros j Hj. unfold rejected. apply orb_true_iff.
    destruct (Hfirst j Hj) as [H|H]; [left | right]; apply Z.eqb_eq; exact H.
  - split; [lia | exact H2].
Qed.

Lemma best_offset_server_not_before_first_witness :
  let slist := [ mk_results 0 4 0 0 0 (replicate 4 0%float) 0;
                 mk_results 0 4 3 5 1 (replicate 4 0%float) 0;
                 mk_results 0 4 2 3 1 (replicate 4 0%float) 0 ] in
  1 <= best_offset_server slist 3 < 3
  /\ stratum (srv slist (best_offset_server slist 3)) <= 3.
Proof.
  intros slist.
  apply (best_offset_server_not_before_first slist 1).
  - cbn; lia.
  - split; vm_compute; discriminate.
  - intros j Hj. left. replace j with 0 by lia. reflexivity.
Defined.

(** X7. Ties are kept by the earlier peer: when all peers that are not
    rejected report the same delay, the first of them is selected. *)
Theorem best_offset_server_equal_delays (slist : list ntp_server_results)
    (f : Z) :
  let n := Z.of_nat (length slist) in
  0 <= f < n ->
  stratum (srv slist f) <> 0 /\ LI (flags (srv slist f)) <> LI_ALARM ->
  (forall j, 0 <= j < f ->
     stratum (srv slist j) = 0 \/ LI (flags (srv slist j)) = LI_ALARM) ->
  (forall c, 0 <= c < n ->
     stratum (srv slist c) <> 0 /\ LI (flags (srv slist c)) <> LI_ALARM ->
     rtdelay (srv slist c) = rtdelay (srv slist f)) ->
  best_offset_server slist n = f.
Proof.
  cbv zeta. intros Hf [Hs Hl] Hfirst Hall.
  destruct (best_offset_server_first slist f Hf) as (_ & _ & H3).
  - unfold rejected. apply orb_false_iff. split; apply Z.eqb_neq; assumption.
  - intros j Hj. unfold rejected. apply orb_true_iff.
    destruct (Hfirst j Hj) as [H|H]; [left | right]; apply Z.eqb_eq; exact H.
  - apply H3. intros c Hc Hacc. apply Hall; [exact Hc|].
    unfold rejected in Hacc. apply orb_false_iff in Hacc as [H1 H2].
    apply Z.eqb_neq in H1, H2. split; assumption.
Qed.

Lemma best_offset_server_equal_delays_witness :
  best_offset_server
    [ mk_results 0 4 2 3 1 (replicate 4 0%float) 0;
      mk_results 0 4 1 3 0 (replicate 4 0%float) 0 ] 2 = 0.
Proof.
  apply (best_offset_server_equal_delays
           [ mk_results 0 4 2 3 1 (replicate 4 0%float) 0;
             mk_results 0 4 1 3 0 (replicate 4 0%float) 0 ] 0).
  - cbn; lia.
  - split; vm_compute; discriminate.
  - intros j Hj. lia.
  - intros c Hc _. assert (c = 0 \/ c = 1) as [->| ->] by (cbn in Hc; lia); reflexivity.
Defined.

(** ** More on the sampling loop *)

(** What the send step does to the record of peer [j]. *)
Lemma send_loop_step (t : timeval) (st : sampler) (j : nat)
    (s : ntp_server_results) :
  servers st !! j = Some s ->
  let st1 := send_loop (length (servers st)) 0 t st in
  now_time st1 = now_time st
  /\ length (servers st1) = length (servers st)
  /\ ((servers st1 !! j = Some s
       /\ receptions j (io_log st1) = receptions j (io_log st)
       /\ (sends (io_log st1) = sends (io_log st)
           \/ exists k, k <> j /\ sends (io_log st1) = sends (io_log st) ++ [k])
       /\ length (io_log st1) <= S (length (io_log st)))%nat
      \/ (sendable (now_time st) s = true
          /\ servers st1 !! j
             = Some (mk_results (now_time st) (num_responses s) (stratum s) (rtdelay s)
                       (rtdisp s) (offset s) (flags s))
          /\ receptions j (io_log st1) = receptions j (io_log st)
          /\ sends (io_log st1) = sends (io_log st) ++ [j]
          /\ length (io_log st1) = S (length (io_log st)))).
Proof.
  intros Hj st1.
  destruct (send_loop_cases (length (servers st)) 0 t st eq_refl)
    as [[_ Heq]|(k & sk & _ & Hk & Hsend & _ & Heq)]; subst st1; rewrite Heq.
  - split; [reflexivity|]. split; [reflexivity|]. left. auto.
  - unfold send_request. fields. split; [reflexivity|].
    split; [apply length_insert|]. rewrite receptions_sent, sends_app, length_app.
    cbn [length]. pose proof (lookup_lt_Some _ _ _ Hk) as Hlt.
    destruct (decide (k = j)) as [->|Hne].
    + right. rewrite Hj in Hk. injection Hk as <-.
      split; [exact Hsend|]. split; [apply list_lookup_insert_eq; exact Hlt|].
      split; [reflexivity|]. split; [reflexivity | lia].
    + left. rewrite list_lookup_insert_ne by exact Hne.
      split; [exact Hj|]. split; [reflexivity|]. split; [|lia].
      right. exists k. split; [exact Hne | reflexivity].
Qed.

Section ReceiveMore.

Variable time_offset : Z.

(** What one read changes. *)
Lemma recv_one_effect (e : iter_env) (i : nat) (st st' : sampler) :
  recv_one time_offset e i st = Ret st' ->
  exists s s',
    servers st !! i = Some s
    /\ 0 <= num_responses s < AVG_NUM
    /\ servers st' = <[i := s']> (servers st)
    /\ num_responses s' = num_responses s + 1
    /\ offset s' = <[Z.to_nat (num_responses s) :=
                      (calc_offset (read_into (default [] (req st !! i)) (env_read e i))
                         (env_recv_tv e i) + Z2double time_offset)%float]> (offset s)
    /\ waiting s' = 0
    /\ (exists m tv, io_log st' = io_log st ++ [Received i m tv]).
Proof.
  unfold recv_one. intros Hr.
  destruct (servers st !! i) as [s|] eqn:Hs; [|discriminate Hr].
  destruct (req st !! i) as [buf|] eqn:Hbuf; [|discriminate Hr].
  unfold store_offset in Hr.
  destruct ((0 <=? num_responses s) && (num_responses s <? AVG_NUM)) eqn:E;
    [|discriminate Hr].
  apply andb_true_iff in E as [E1 E2]. apply Z.leb_le in E1. apply Z.ltb_lt in E2.
  injection Hr as <-. eexists s, _. fields.
  split; [reflexivity|]. split; [lia|]. split; [reflexivity|]. fields.
  split; [reflexivity|]. split; [reflexivity|]. split; [reflexivity|].
  eexists _, _. reflexivity.
Qed.

(** What the receive step does to the record of peer [j]: nothing, or one
    more response. *)
Lemma recv_loop_step (e : iter_env) (n : nat) :
  forall (i0 : nat) (servers_readable : Z) (st st' : sampler) (j : nat)
         (s : ntp_server_results),
    recv_loop time_offset e n i0 servers_readable st = Ret st' ->
    servers st !! j = Some s ->
    exists s',
      servers st' !! j = Some s'
      /\ ((s' = s /\ receptions j (io_log st') = receptions j (io_log st))
          \/ ((i0 <= j)%nat /\ env_pollin e j = true /\ servers_readable <> 0
              /\ 0 <= num_responses s < AVG_NUM
              /\ num_responses s' = num_responses s + 1
              /\ take (Z.to_nat (num_responses s)) (offset s')
                 = take (Z.to_nat (num_responses s)) (offset s)
              /\ waiting s' = 0)).
Proof.
  induction n as [|n IH]; intros i0 sr st st' j s Hr Hj; cbn [recv_loop] in Hr.
  - injection Hr as <-. exists s. auto.
  - destruct (sr =? 0) eqn:Esr; [injection Hr as <-; exists s; auto|].
    apply Z.eqb_neq in Esr.
    destruct (servers st !! i0) as [si|] eqn:Hi; [|discriminate Hr].
    destruct (env_pollin e i0 && (num_responses si <? AVG_NUM)) eqn:Eg.
    + destruct (recv_one time_offset e i0 st) as [st1| |] eqn:E1; try discriminate Hr.
      cbn [bind] in Hr. apply andb_true_iff in Eg as [Ep _].
      destruct (recv_one_effect e i0 st st1 E1)
        as (s0 & s1 & Hs0 & Hn0 & Hsrv & Hn1 & Hoff & Hw & m & tv & Hlog).
      rewrite Hi in Hs0. injection Hs0 as <-.
      pose proof (lookup_lt_Some _ _ _ Hi) as Hlt.
      destruct (decide (j = i0)) as [->|Hne].
      * rewrite Hi in Hj. injection Hj as <-.
        assert (H1 : servers st1 !! i0 = Some s1)
          by (rewrite Hsrv; apply list_lookup_insert_eq; exact Hlt).
        destruct (IH (S i0) (sr - 1) st1 st' i0 s1 Hr H1) as (s' & Hs' & [[-> _]|Hc]);
          [|lia].
        exists s1. split; [exact Hs'|]. right.
        split; [lia|]. split; [exact Ep|]. split; [exact Esr|]. split; [exact Hn0|].
        split; [exact Hn1|]. split; [|exact Hw].
        rewrite Hoff. apply take_insert_ge. lia.
      * assert (H1 : servers st1 !! j = Some s)
          by (rewrite Hsrv, list_lookup_insert_ne by congruence; exact Hj).
        destruct (IH (S i0) (sr - 1) st1 st' j s Hr H1) as (s' & Hs' & [[-> Hrec]|Hc]).
        -- exists s. split; [exact Hs'|]. left. split; [reflexivity|].
           rewrite Hrec, Hlog. apply receptions_received_ne. exact Hne.
        -- exists s'. split; [exact Hs'|]. right.
           destruct Hc as (H2 & H3 & H4 & H5). repeat split; try tauto; lia.
    + destruct (IH (S i0) sr st st' j s Hr Hj) as (s' & Hs' & [Hc|Hc]).
      * exists s'. split; [exact Hs'|]. left. exact Hc.
      * exists s'. split; [exact Hs'|]. right.
        destruct Hc as (H2 & H3 & H4 & H5). repeat split; try tauto; lia.
Qed.

Lemma recv_loop_log (e : iter_env) (n : nat) :
  forall (i0 : nat) (servers_readable : Z) (st st' : sampler),
    recv_loop time_offset e n i0 servers_readable st = Ret st' ->
    0 <= servers_readable ->
    Z.of_nat (length (io_log st')) <= Z.of_nat (length (io_log st)) + servers_readable.
Proof.
  induction n as [|n IH]; intros i0 sr st st' Hr Hsr; cbn [recv_loop] in Hr.
  - injection Hr as <-. lia.
  - destruct (sr =? 0) eqn:Esr; [injection Hr as <-; lia|].
    apply Z.eqb_neq in Esr.
    destruct (servers st !! i0) as [si|] eqn:Hi; [|discriminate Hr].
    destruct (env_pollin e i0 && (num_responses si <? AVG_NUM)).
    + destruct (recv_one time_offset e i0 st) as [st1| |] eqn:E1; try discriminate Hr.
      cbn [bind] in Hr.
      destruct (recv_one_effect e i0 st st1 E1) as (_ & _ & _ & _ & _ & _ & _ & _ & m & tv & Hlog).
      specialize (IH (S i0) (sr - 1) st1 st' Hr ltac:(lia)).
      rewrite Hlog, length_app in IH. cbn [length] in IH. lia.
    + specialize (IH (S i0) sr st st' Hr Hsr). lia.
Qed.

(** X14. A read that fails, or that delivers at most one byte, right after
    a request was written to the buffer of the peer still counts as a
    response, but records stratum 0 (the stratum of the request), so the
    selection does not return this peer. *)
Theorem failed_read_is_rejected (e : iter_env) (i : nat)
    (s : ntp_server_results) (t : timeval) (st st2 : sampler) :
  servers st !! i = Some s -> (i < length (req st))%nat ->
  (forall d, env_read e i = Some d -> (length d <= 1)%nat) ->
  recv_one time_offset e i (send_request i s t st) = Ret st2 ->
  exists s2,
    servers st2 !! i = Some s2
    /\ num_responses s2 = num_responses s + 1
    /\ stratum s2 = 0
    /\ best_offset_server (servers st2) (Z.of_nat (length (servers st2)))
       <> Z.of_nat i.
Proof.
  intros Hi Hreq Hshort Hr. pose proof (lookup_lt_Some _ _ _ Hi) as Hlt.
  unfold recv_one, send_request in Hr. cbn [servers req] in Hr.
  rewrite !list_lookup_insert_eq in Hr by assumption. cbn [num_responses offset] in Hr.
  destruct (store_offset _ _ _) as [offset'|]; [|discriminate Hr].
  injection Hr as <-. cbn [servers].
  set (m := read_into (setup_request t) (env_read e i)).
  assert (Hm : msg_stratum m = 0).
  { subst m. destruct (env_read e i) as [d|] eqn:Hd; [|reflexivity].
    specialize (Hshort d eq_refl). destruct d as [|b [|b' d]]; [reflexivity | reflexivity|].
    cbn in Hshort. lia. }
  eexists. split; [apply list_lookup_insert_eq; rewrite length_insert; exact Hlt|].
  cbn [num_responses stratum]. split; [reflexivity|]. split; [exact Hm|].
  intros Hbest.
  match type of Hbest with context [best_offset_server ?l _] => set (l2 := l) in * end.
  assert (Hne : best_offset_server l2 (Z.of_nat (length l2)) <> -1) by lia.
  destruct (proj2 (best_offset_server_select l2) Hne) as [_ Hacc].
  rewrite Hbest in Hacc. unfold srv in Hacc. rewrite Nat2Z.id in Hacc.
  subst l2. erewrite nth_lookup_Some in Hacc
    by (apply list_lookup_insert_eq; rewrite length_insert; exact Hlt).
  unfold rejected in Hacc. cbn [stratum] in Hacc. fold m in Hacc.
  rewrite Hm in Hacc. discriminate Hacc.
Qed.

End ReceiveMore.

Section IterationMore.

Variable num_hosts : nat.
Variable time_offset : Z.

#[local] Abbreviation inv := (sampler_inv num_hosts time_offset).
#[local] Abbreviation body := (loop_body num_hosts time_offset).

(** X8. A peer that has its [AVG_NUM] responses is left alone: an iteration
    changes nothing in its record, reads nothing from it and sends it
    nothing. *)
Theorem completed_peer_untouched (e : iter_env) (st st' : sampler) (i : nat)
    (s : ntp_server_results) :
  length (servers st) = num_hosts ->
  body e st = Ret st' ->
  servers st !! i = Some s ->
  num_responses s = AVG_NUM ->
  servers st' !! i = Some s
  /\ receptions i (io_log st') = receptions i (io_log st)
  /\ (sends (io_log st') = sends (io_log st)
      \/ exists k, k <> i /\ sends (io_log st') = sends (io_log st) ++ [k]).
Proof.
  intros Hlen Hb Hi Hfull. unfold loop_body in Hb.
  destruct (env_poll e =? -1); [discriminate Hb|].
  pose proof (send_loop_step (env_send_tv e) (set_now_time (env_time e) st) i s Hi)
    as (_ & _ & Hsend).
  cbn [servers set_now_time] in Hsend. rewrite Hlen in Hsend.
  destruct Hsend as [(H1 & H2 & H3 & _)|(Hs & _)].
  - destruct (recv_loop_step time_offset e _ _ _ _ _ i s Hb H1) as (s' & Hs' & [[-> Hrec]|Hc]).
    + split; [exact Hs'|]. rewrite (recv_loop_sends _ _ _ _ _ _ _ Hb), Hrec.
      split; [exact H2 | exact H3].
    + lia.
  - unfold sendable in Hs. apply andb_true_iff in Hs as [_ Hs]. apply Z.ltb_lt in Hs. lia.
Qed.

(** X9. In one iteration the response count of a peer stays or grows by
    one, never more, and the samples the peer already has are not
    overwritten. *)
Theorem one_response_per_iteration (e : iter_env) (st st' : sampler) (j : nat)
    (s : ntp_server_results) :
  length (servers st) = num_hosts ->
  body e st = Ret st' ->
  servers st !! j = Some s ->
  0 <= num_responses s ->
  exists s',
    servers st' !! j = Some s'
    /\ num_responses s <= num_responses s' <= num_responses s + 1
    /\ take (Z.to_nat (num_responses s)) (offset s')
       = take (Z.to_nat (num_responses s)) (offset s)
    /\ (num_responses s' = num_responses s ->
        receptions j (io_log st') = receptions j (io_log st)).
Proof.
  intros Hlen Hb Hj Hn. unfold loop_body in Hb.
  destruct (env_poll e =? -1); [discriminate Hb|].
  pose proof (send_loop_step (env_send_tv e) (set_now_time (env_time e) st) j s Hj)
    as (_ & _ & Hsend).
  cbn [servers set_now_time io_log now_time] in Hsend. rewrite Hlen in Hsend.
  assert (Hmid : exists s1, servers (send_loop num_hosts 0 (env_send_tv e)
                                       (set_now_time (env_time e) st)) !! j = Some s1
                 /\ num_responses s1 = num_responses s /\ offset s1 = offset s
                 /\ receptions j (io_log (send_loop num_hosts 0 (env_send_tv e)
                                            (set_now_time (env_time e) st)))
                    = receptions j (io_log st)).
  { destruct Hsend as [(H1 & H2 & _)|(_ & H1 & H2 & _)]; eexists; split; eauto. }
  destruct Hmid as (s1 & H1 & Hn1 & Ho1 & Hr1).
  destruct (recv_loop_step time_offset e _ _ _ _ _ j s1 Hb H1) as (s' & Hs' & [[-> Hrec]|Hc]).
  - exists s1. split; [exact Hs'|]. rewrite Hn1, Ho1. split; [lia|].
    split; [reflexivity|]. intros _. rewrite Hrec. exact Hr1.
  - destruct Hc as (_ & _ & _ & _ & Hn' & Ht & _). exists s'.
    split; [exact Hs'|]. rewrite Hn1, Ho1 in *. split; [lia|]. split; [exact Ht | lia].
Qed.

(** X10. An iteration writes at most one request and reads at most as many
    datagrams as [poll] reported descriptors. *)
Theorem iteration_io_bound (e : iter_env) (st st' : sampler) :
  length (servers st) = num_hosts ->
  body e st = Ret st' ->
  0 <= env_poll e ->
  (length (sends (io_log st')) <= S (length (sends (io_log st))))%nat
  /\ Z.of_nat (length (io_log st')) - Z.of_nat (length (sends (io_log st')))
     <= Z.of_nat (length (io_log st)) - Z.of_nat (length (sends (io_log st)))
        + env_poll e.
Proof.
  intros Hlen Hb Hpoll. unfold loop_body in Hb.
  destruct (env_poll e =? -1); [discriminate Hb|].
  pose proof (recv_loop_sends _ _ _ _ _ _ _ Hb) as Hsends.
  pose proof (recv_loop_log time_offset _ _ _ _ _ _ Hb Hpoll) as Hlog.
  destruct (send_loop_cases num_hosts 0 (env_send_tv e) (set_now_time (env_time e) st)
              ltac:(cbn; lia)) as [[_ Heq]|(k & sk & _ & _ & _ & _ & Heq)];
    rewrite Heq in *.
  - cbn [set_now_time io_log] in *. rewrite Hsends. split; lia.
  - unfold send_request in *. cbn [set_now_time io_log] in *.
    assert (Hs : sends (io_log st') = sends (io_log st) ++ [k])
      by (rewrite Hsends, sends_app; reflexivity).
    rewrite Hs. rewrite !length_app in *. cbn [length] in *. split; lia.
Qed.

(** X13. Two iterations in a row with the same clock reading, when nothing
    was readable in the first: if both send a request, the second goes to
    a peer after the peer of the first. *)
Theorem rescan_moves_forward (e1 e2 : iter_env) (st st1 st2 : sampler)
    (i k : nat) :
  length (servers st) = num_hosts ->
  body e1 st = Ret st1 -> body e2 st1 = Ret st2 ->
  env_poll e1 = 0 -> env_time e2 = env_time e1 ->
  sends (io_log st1) = sends (io_log st) ++ [i] ->
  sends (io_log st2) = sends (io_log st1) ++ [k] ->
  (i < k)%nat.
Proof.
  intros Hlen Hb1 Hb2 Hpoll Htime Hs1 Hs2.
  unfold loop_body in Hb1, Hb2. rewrite Hpoll in Hb1. cbn [Z.eqb] in Hb1.
  assert (Hst1 : st1 = send_loop num_hosts 0 (env_send_tv e1)
                         (set_now_time (env_time e1) st)).
  { destruct num_hosts; cbn [recv_loop Z.eqb] in Hb1; congruence. }
  destruct (env_poll e2 =? -1); [discriminate Hb2|].
  apply recv_loop_sends in Hb2. rewrite Hb2 in Hs2. clear Hb1 Hb2.
  destruct (send_loop_cases num_hosts 0 (env_send_tv e1) (set_now_time (env_time e1) st)
              ltac:(cbn; lia)) as [[_ Heq]|(i' & si & _ & Hi & _ & Hbefore & Heq)];
    rewrite Heq in Hst1; subst st1.
  { cbn [set_now_time io_log] in Hs1. apply (f_equal length) in Hs1.
    rewrite length_app in Hs1. cbn in Hs1. lia. }
  unfold send_request in Hs1 at 1. cbn [set_now_time io_log] in Hs1.
  rewrite sends_app in Hs1. apply app_inj_tail in Hs1 as [_ [= <-]].
  cbn [set_now_time servers now_time] in Hi, Hbefore.
  pose proof (lookup_lt_Some _ _ _ Hi) as Hlt.
  set (st1 := send_request i' si (env_send_tv e1) (set_now_time (env_time e1) st)) in *.
  assert (Hlen1 : length (servers st1) = num_hosts)
    by (subst st1; unfold send_request; cbn [servers set_now_time];
        rewrite length_insert; exact Hlen).
  destruct (send_loop_cases num_hosts 0 (env_send_tv e2) (set_now_time (env_time e2) st1)
              ltac:(cbn [servers set_now_time]; lia))
    as [[_ Heq2]|(k' & sk & _ & Hk & Hsend & _ & Heq2)]; rewrite Heq2 in Hs2.
  { cbn [set_now_time io_log] in Hs2. apply (f_equal length) in Hs2.
    rewrite length_app in Hs2. cbn in Hs2. lia. }
  unfold send_request in Hs2 at 1. cbn [set_now_time io_log] in Hs2.
  rewrite sends_app in Hs2. apply app_inj_tail in Hs2 as [_ [= <-]].
  cbn [set_now_time servers now_time] in Hk, Hsend. rewrite Htime in Hsend.
  subst st1. unfold send_request in Hk. cbn [servers set_now_time now_time] in Hk.
  destruct (lt_eq_lt_dec i' k') as [[Hlt'|Heq']|Hgt]; [exact Hlt' | exfalso | exfalso].
  - subst k'. rewrite list_lookup_insert_eq in Hk by exact Hlt. injection Hk as <-.
    unfold sendable in Hsend. cbn [waiting] in Hsend.
    rewrite Z.ltb_irrefl in Hsend. discriminate Hsend.
  - rewrite list_lookup_insert_ne in Hk by lia.
    rewrite (Hbefore k' sk ltac:(lia) Hk) in Hsend. discriminate Hsend.
Qed.

Lemma one_read_iff (st : sampler) :
  inv st ->
  (one_read st = false <-> Forall (fun s => num_responses s = 0) (servers st)).
Proof.
  intros Hinv. pose proof (si_one_read _ _ _ Hinv) as Hone. split.
  - intros H0. apply Forall_lookup. intros i s Hs.
    destruct (si_peers _ _ _ Hinv i s Hs) as [P1 _ _ _ _].
    destruct (Z.eq_dec (num_responses s) 0) as [|Hne]; [assumption|].
    assert (one_read st = true) by (apply Hone; exists i, s; split; [exact Hs | lia]).
    congruence.
  - intros Hall. destruct (one_read st); [|reflexivity].
    destruct (proj1 Hone eq_refl) as (i & s & Hs & Hpos).
    pose proof (Forall_lookup_1 _ _ _ _ Hall Hs) as H0. cbn in H0. lia.
Qed.

Lemma all_rejected_none (st : sampler) :
  inv st ->
  Forall (fun s => stratum s = 0 \/ LI (flags s) = LI_ALARM) (servers st) ->
  best_offset_server (servers st) (Z.of_nat num_hosts) = -1.
Proof.
  intros Hinv Hall. rewrite <- (si_servers _ _ _ Hinv).
  apply (proj1 (best_offset_server_select (servers st))).
  eapply Forall_impl; [exact Hall|]. intros s Hs. unfold rejected.
  apply orb_true_iff. destruct Hs as [H|H]; [left | right]; apply Z.eqb_eq; exact H.
Qed.

End IterationMore.

(** *** The session as a whole *)

Section SessionMore.

Variable num_hosts : nat.
Variable socket_timeout time_offset start_ts : Z.
Variable req0 : nat -> ntp_message.

#[local] Abbreviation inv := (sampler_inv num_hosts time_offset).
#[local] Abbreviation init := (init_sampler num_hosts start_ts req0).
#[local] Abbreviation loop := (sampling_loop num_hosts socket_timeout time_offset start_ts).

Lemma sampling_loop_die (env : nat -> iter_env) (fuel : nat) :
  forall (k : nat) (st : sampler) (s : mp_state_enum) (msg : string),
    inv st -> loop fuel env k st = Some (Die s msg) ->
    s = STATE_UNKNOWN /\ msg = "communication errors"%string.
Proof.
  induction fuel as [|fuel IH]; intros k st s msg Hinv Hr; cbn [sampling_loop] in Hr;
    destruct (loop_cond _ _ _ st); try discriminate Hr.
  destruct (loop_body_inv num_hosts time_offset (env k) st Hinv)
    as [[_ Hb]|(_ & st1 & Hb & Hinv1 & _)]; rewrite Hb in Hr.
  - injection Hr as <- <-. split; reflexivity.
  - apply (IH (S k) st1 s msg Hinv1 Hr).
Qed.

Lemma loop_exit_inv (env : nat -> iter_env) (fuel : nat) (st : sampler) :
  loop fuel env 0 init = Some (Ret st) -> inv st.
Proof.
  apply sampling_loop_inv.
Qed.

(** X11. When the loop is left with at least one recorded response but
    every peer has stratum 0 or leap indicator ALARM, [offset_request] does
    not die: it returns the offset 0.0 and sets [*status] to UNKNOWN. *)
Theorem no_qualifying_server (env : nat -> iter_env) (fuel : nat)
    (status : mp_state_enum) (st : sampler) :
  loop fuel env 0 init = Some (Ret st) ->
  Exists (fun s => 0 < num_responses s) (servers st) ->
  Forall (fun s => stratum s = 0 \/ LI (flags s) = LI_ALARM) (servers st) ->
  offset_result num_hosts st status = Ret (0%float, STATE_UNKNOWN).
Proof.
  intros Hr Hex Hall. pose proof (loop_exit_inv env fuel st Hr) as Hinv.
  unfold offset_result. rewrite (all_rejected_none num_hosts time_offset st Hinv Hall).
  destruct (one_read st) eqn:E; [reflexivity|].
  apply (one_read_iff num_hosts time_offset st Hinv) in E. apply Exists_exists in Hex as (s & Hin & Hpos).
  rewrite Forall_forall in E. specialize (E s Hin). cbn in E. lia.
Qed.

(** The ways the part of [offset_request] from the loop on ends. *)
Lemma offset_request_loop_outcomes (env : nat -> iter_env) (fuel : nat)
    (status : mp_state_enum) :
  match offset_request num_hosts socket_timeout time_offset start_ts req0 fuel env
          status with
  | Some (Ret (avg_offset, status')) =>
      status' = status \/ (status' = STATE_UNKNOWN /\ avg_offset = 0%float)
  | Some (Die s msg) =>
      (s = STATE_UNKNOWN /\ msg = "communication errors"%string)
      \/ (s = STATE_CRITICAL
          /\ msg = "NTP CRITICAL: No response from NTP server"%string)
  | Some OutOfBounds => False
  | None => True
  end.
Proof.
  unfold offset_request.
  destruct (loop fuel env 0 init) as [[st|s msg|]|] eqn:Hr; [| | |exact I].
  - unfold offset_result. destruct (negb (one_read st)); [right; auto|].
    destruct (_ <? 0); [right; auto | left; reflexivity].
  - left. apply (sampling_loop_die env fuel 0 init s msg (inv_init _ _ _ _) Hr).
  - apply (sampling_loop_result num_hosts socket_timeout time_offset start_ts
             env fuel 0 init OutOfBounds (inv_init _ _ _ _) Hr).
Qed.

(** X15. The state [main] exits with after a session that left the loop:
    CRITICAL when no response was recorded, with or without [-q]; when
    there are responses but every peer is rejected, UNKNOWN without [-q]
    and CRITICAL with [-q]; and when a peer is selected, the state
    [get_status] gives for the absolute value of the returned offset. *)
Theorem main_exit_states (quiet : bool) (get_status : float -> mp_state_enum)
    (env : nat -> iter_env) (fuel : nat) (st : sampler) :
  loop fuel env 0 init = Some (Ret st) ->
  let r := offset_result num_hosts st STATE_OK in
  (Forall (fun s => num_responses s = 0) (servers st) ->
   main_result quiet get_status r
   = Die STATE_CRITICAL "NTP CRITICAL: No response from NTP server")
  /\ (Exists (fun s => 0 < num_responses s) (servers st) ->
      Forall (fun s => stratum s = 0 \/ LI (flags s) = LI_ALARM) (servers st) ->
      main_result quiet get_status r
      = Ret (if quiet then STATE_CRITICAL else STATE_UNKNOWN))
  /\ (best_offset_server (servers st) (Z.of_nat num_hosts) <> -1 ->
      exists avg_offset,
        r = Ret (avg_offset, STATE_OK)
        /\ main_result quiet get_status r = Ret (get_status (abs avg_offset))).
Proof.
  intros Hr r. pose proof (loop_exit_inv env fuel st Hr) as Hinv. split; [|split].
  - intros Hall. subst r. unfold offset_result.
    rewrite (proj2 (one_read_iff num_hosts time_offset st Hinv) Hall). reflexivity.
  - intros Hex Hall. subst r. unfold offset_result.
    rewrite (all_rejected_none num_hosts time_offset st Hinv Hall).
    destruct (one_read st) eqn:E.
    + cbn. destruct quiet; reflexivity.
    + apply (one_read_iff num_hosts time_offset st Hinv) in E. apply Exists_exists in Hex as (s & Hin & Hpos).
      rewrite Forall_forall in E. specialize (E s Hin). cbn in E. lia.
  - intros Hb. subst r. unfold offset_result.
    destruct (best_offset_server_responded num_hosts time_offset st Hinv Hb)
      as [Hrange Hnum].
    pose proof Hrange as Hrange'. rewrite <- (si_servers _ _ _ Hinv) in Hrange'.
    pose proof (srv_lookup _ _ Hrange') as Hs.
    rewrite (si_servers _ _ _ Hinv) in Hs.
    rewrite (proj2 (si_one_read _ _ _ Hinv)) by (eexists _, _; split; [exact Hs | lia]).
    cbn [negb].
    replace (_ <? 0) with false by (symmetry; apply Z.ltb_ge; lia).
    eexists. split; reflexivity.
Qed.

End SessionMore.

Lemma open_sockets_outcomes (se : setup_env) (n : nat) :
  forall i,
    match open_sockets se n i with
    | Ret _ => True
    | Die s msg => s = STATE_UNKNOWN /\ msg = "can not create new socket"%string
    | OutOfBounds => False
    end.
Proof.
  induction n as [|n IH]; intros i; cbn [open_sockets]; [exact I|].
  destruct (socket_result se i =? -1); [split; reflexivity | apply IH].
Qed.

(** X12. The ways [offset_request] itself ends, from its first line on (the
    SIGALRM handler [main] installs is not part of the function): it dies
    with UNKNOWN and one of the messages "error getting address for <host>:
    <reason>", "can not allocate ntp message array", "can not allocate
    socket array", "can not allocate server array", "can not create new
    socket" or "communication errors"; it dies with CRITICAL and "NTP
    CRITICAL: No response from NTP server"; or it returns, leaving
    [*status] as it was or setting it to UNKNOWN with the offset 0.0.  It
    never stores outside its arrays. *)
Theorem offset_request_whole_outcomes (host : string) (se : setup_env)
    (socket_timeout time_offset start_ts : Z) (req0 : nat -> ntp_message)
    (env : nat -> iter_env) (fuel : nat) (status : mp_state_enum) :
  match offset_request_whole host se socket_timeout time_offset start_ts req0 fuel
          env status with
  | Some (Ret (avg_offset, status')) =>
      ga_result se = 0
      /\ (status' = status \/ (status' = STATE_UNKNOWN /\ avg_offset = 0%float))
  | Some (Die s msg) =>
      (s = STATE_UNKNOWN
       /\ (msg = String.append "error getting address for "
                   (String.append host (String.append ": " (ga_strerror se)))
           \/ msg = "can not allocate ntp message array"%string
           \/ msg = "can not allocate socket array"%string
           \/ msg = "can not allocate server array"%string
           \/ msg = "can not create new socket"%string
           \/ msg = "communication errors"%string))
      \/ (s = STATE_CRITICAL
          /\ msg = "NTP CRITICAL: No response from NTP server"%string)
  | Some OutOfBounds => False
  | None => True
  end.
Proof.
  unfold offset_request_whole.
  destruct (ga_result se =? 0) eqn:Ega; cbn [negb]; [|left; split; [reflexivity | tauto]].
  apply Z.eqb_eq in Ega.
  destruct (malloc_req se); cbn [negb]; [|left; split; [reflexivity | tauto]].
  destruct (malloc_socklist se); cbn [negb]; [|left; split; [reflexivity | tauto]].
  destruct (malloc_ufds se); cbn [negb]; [|left; split; [reflexivity | tauto]].
  destruct (malloc_servers se); cbn [negb]; [|left; split; [reflexivity | tauto]].
  pose proof (open_sockets_outcomes se (ga_hosts se) 0) as Hs.
  destruct (open_sockets se (ga_hosts se) 0) as [u|s msg|];
    [| destruct Hs as [-> ->]; left; split; [reflexivity | tauto] | exact Hs].
  pose proof (offset_request_loop_outcomes (ga_hosts se) socket_timeout time_offset
                start_ts req0 env fuel status) as Hl.
  destruct (offset_request (ga_hosts se) socket_timeout time_offset start_ts req0
              fuel env status) as [[[avg status']|s msg|]|];
    [split; [exact Ega | exact Hl] | | exact Hl | exact I].
  destruct Hl as [[-> ->]|[-> ->]]; [left | right]; split; try reflexivity. tauto.
Qed.

(** ** More example sessions *)

Lemma unsynchronised_session :
  sampling_loop 1 10 0 100 10 unsynchronised_env 0 (init_sampler 1 100 no_req)
  = Some (Ret (final_state unsynchronised_env)).
Proof.
  vm_compute. reflexivity.
Defined.

Lemma completed_peer_untouched_witness :
  let st := final_state responsive_env in
  let st' := ret_or st (loop_body 1 0 (responsive_env 4) st) in
  loop_body 1 0 (responsive_env 4) st = Ret st'
  /\ map num_responses (servers st) = [AVG_NUM]
  /\ servers st' = servers st
  /\ sends (io_log st') = sends (io_log st).
Proof.
  intros st st'.
  assert (Hb : loop_body 1 0 (responsive_env 4) st = Ret st') by (vm_compute; reflexivity).
  destruct (completed_peer_untouched 1 0 (responsive_env 4) st st' 0
              (srv (servers st) 0) eq_refl Hb eq_refl eq_refl) as (H1 & _ & _).
  split; [exact Hb|]. split; [reflexivity|]. split; reflexivity.
Defined.

Lemma one_response_per_iteration_witness :
  let st := init_sampler 1 100 no_req in
  let st' := ret_or st (loop_body 1 0 (responsive_env 0) st) in
  loop_body 1 0 (responsive_env 0) st = Ret st'
  /\ exists s', servers st' !! 0%nat = Some s' /\ 0 <= num_responses s' <= 1.
Proof.
  intros st st'.
  assert (Hb : loop_body 1 0 (responsive_env 0) st = Ret st') by (vm_compute; reflexivity).
  destruct (one_response_per_iteration 1 0 (responsive_env 0) st st' 0 zero_results
              eq_refl Hb eq_refl (Z.le_refl 0)) as (s' & Hs' & Hn & _).
  split; [exact Hb|]. exists s'. split; [exact Hs' | exact Hn].
Defined.

Lemma iteration_io_bound_witness :
  let st := init_sampler 1 100 no_req in
  let st' := ret_or st (loop_body 1 0 (responsive_env 0) st) in
  loop_body 1 0 (responsive_env 0) st = Ret st'
  /\ (length (sends (io_log st')) <= 1)%nat
  /\ (length (io_log st') <= 2)%nat.
Proof.
  intros st st'.
  assert (Hb : loop_body 1 0 (responsive_env 0) st = Ret st') by (vm_compute; reflexivity).
  destruct (iteration_io_bound 1 0 (responsive_env 0) st st' eq_refl Hb)
    as [H1 H2]; [discriminate|].
  split; [exact Hb|]. split; [exact H1|]. cbn in H1, H2 |- *. lia.
Defined.

Lemma no_qualifying_server_witness :
  sampling_loop 1 10 0 100 10 unsynchronised_env 0 (init_sampler 1 100 no_req)
  = Some (Ret (final_state unsynchronised_env))
  /\ map num_responses (servers (final_state unsynchronised_env)) = [4]
  /\ map (fun s => LI (flags s)) (servers (final_state unsynchronised_env)) = [LI_ALARM]
  /\ offset_result 1 (final_state unsynchronised_env) STATE_OK
     = Ret (0%float, STATE_UNKNOWN).
Proof.
  split; [exact unsynchronised_session|]. split; [reflexivity|]. split; [reflexivity|].
  apply (no_qualifying_server 1 10 0 100 no_req unsynchronised_env 10 STATE_OK
           (final_state unsynchronised_env) unsynchronised_session).
  - apply Exists_cons_hd. reflexivity.
  - apply Forall_cons. split; [right; reflexivity | apply Forall_nil; exact I].
Defined.

Lemma rescan_moves_forward_witness :
  let st := init_sampler 2 100 no_req in
  let st1 := ret_or st (loop_body 2 0 (silent_env 0) st) in
  let st2 := ret_or st (loop_body 2 0 (silent_env 0) st1) in
  sends (io_log st1) = [0%nat] /\ sends (io_log st2) = [0%nat; 1%nat] /\ (0 < 1)%nat.
Proof.
  intros st st1 st2.
  assert (Hb1 : loop_body 2 0 (silent_env 0) st = Ret st1) by (vm_compute; reflexivity).
  assert (Hb2 : loop_body 2 0 (silent_env 0) st1 = Ret st2) by (vm_compute; reflexivity).
  split; [reflexivity|]. split; [reflexivity|].
  exact (rescan_moves_forward 2 0 (silent_env 0) (silent_env 0) st st1 st2 0 1
           eq_refl Hb1 Hb2 eq_refl eq_refl eq_refl eq_refl).
Defined.

Lemma failed_read_is_rejected_witness :
  let st := set_now_time 101 (init_sampler 1 100 no_req) in
  let st1 := send_request 0 zero_results (mk_timeval 101 0) st in
  let st2 := ret_or st1 (recv_one 0 failing_read_env 0 st1) in
  recv_one 0 failing_read_env 0 st1 = Ret st2
  /\ map num_responses (servers st2) = [1]
  /\ best_offset_server (servers st2) 1 = -1.
Proof.
  intros st st1 st2.
  assert (Hr : recv_one 0 failing_read_env 0 st1 = Ret st2) by (vm_compute; reflexivity).
  destruct (failed_read_is_rejected 0 failing_read_env 0 zero_results (mk_timeval 101 0)
              st st2 eq_refl) as (s2 & _ & _ & _ & _);
    [cbn; lia | intros d Hd; discriminate Hd | exact Hr |].
  split; [exact Hr|]. split; reflexivity.
Defined.

Lemma main_exit_states_witness :
  sampling_loop 1 10 0 100 10 responsive_env 0 (init_sampler 1 100 no_req)
  = Some (Ret (final_state responsive_env))
  /\ main_result false (fun _ => STATE_WARNING)
       (offset_result 1 (final_state responsive_env) STATE_OK)
     = Ret STATE_WARNING.
Proof.
  split; [exact responsive_session|].
  destruct (main_exit_states 1 10 0 100 no_req false (fun _ => STATE_WARNING)
              responsive_env 10 (final_state responsive_env) responsive_session)
    as (_ & _ & H).
  destruct (H responsive_selected) as (avg & _ & Hm). exact Hm.
Defined.
